(* ===== verification/_CoqProject ===== *)
-Q . S2P
Prelude.v
Model.v
Storage.v
Json.v
Gateway.v
App.v
Gallery.v
Favorites.v
Session.v
Admin.v
Machine.v
Invariants.v
Scenarios.v
