(* ===== verification/Prelude.v ===== *)
(** * Verification of pro-portfolio-site: the [Index] page

    The program is one React component, [Index] in
    src/src/pages/Index.tsx. It keeps the signed-in user, the gallery,
    the favourites and the dialogs in [useState] hooks (lines 42-57),
    persists the session in [localStorage] (keys [user] and [token]),
    talks to four HTTP resources ([API_URLS], lines 13-18), and gates
    publishing behind a password compiled into the client (line 39).
    This development models the component's state, every handler and
    effect, and the page as a transition system, and proves what the
    session, the favourites, the admin gate and the publish form do.

    ** Files, in dependency order
    - Prelude.v: this header; the [js] state-and-exception monad in which
      the handlers are written ([Normal]/[Thrown] keep the state reached,
      as JavaScript's [try]/[catch] sees it), JS truthiness, string and
      digit lemmas, the hint databases [portfolio], [portfolio_rw],
      [js_defs] and the tactics [run_js], [run_js_cases].
    - Model.v: [interface User], [interface Work], [ADMIN_PASSWORD], the
      view/auth-mode enums and the three forms (lines 20-57).
    - Storage.v: [localStorage] as a [gmap string string] with a quota,
      [setItem] failing with [QuotaExceededError] past it; the
      [JsonCodec] class states what [JSON.stringify]/[JSON.parse] of a
      stored user must satisfy.
    - Json.v: the codec of the stored user: [JSON.stringify]'s output for
      a [User] (escapes, integer printing) and a [JSON.parse] for it
      (fuelled by the text's length); the round trip discharges the class.
    - Gateway.v: the requests the page sends, the fields of the replies
      it reads ([Body]), and the reply contract of the spec (section 6).
    - App.v: the [App] record (one field per hook, plus storage, requests
      in flight with their continuations, toasts, console), the setters
      and [fetch]. An [async] handler is split at its [await]: the part
      before is a function of [App], the rest a [Cont] resumed by the reply.
    - Gallery.v: [loadWorks], [handleCreateWork] and [parseFloat] of the
      price. Favorites.v: [loadFavorites], [toggleFavorite] and the
      [useEffect(.., [user])]. Session.v: the mount effect, [handleAuth],
      [handleLogout], [handleUpdateProfile]. Admin.v: [handleAdminAccess]
      and leaving admin mode.
    - Machine.v: the events of the JSX (every button, input and form of
      lines 293-683), [enabled] (a control fires only while rendered;
      dialogs are modal), [step] on [Sys] (a running page or a crashed
      one), [run], [reachable] from a first visit.
    - Invariants.v: the invariant [Inv] of every reachable page and its
      preservation by every step. Scenarios.v: concrete runs with the
      codec of Json.v, the stale-favourites race and the witnesses.

    ** What is proved
    - Safety on every reachable page (Invariants.v): admin mode, the
      admin dialog, the favourites/settings views and the publish dialog
      need a signed-in user; the publish dialog needs admin mode; the
      storage stays within quota and holds a serialised user; request ids
      are fresh.
    - Functional behaviour of each handler on every branch, errors
      included: auth success, rejection, transport failure and quota
      failure; logout; profile updates (only filled fields are sent);
      the admin password check; publishing (denied, sent, rejected);
      favourites (toggle, its reply, its failure, signed-out click).
    - Round trips: a reload restores a persisted session (Machine.v); two
      sequential toggles restore the favourite set; [parseFloat] reads
      back the decimal text of every integer up to [2^53] (Gallery.v).
      The codec of Json.v satisfies the [JsonCodec] law (the stored user
      is parsed back), which instantiates the concrete runs.
    - Findings stated as theorems: two interleaved toggles both POST; a
      favourites reply requested for one user is applied to the page of
      the next user (Scenarios.v reaches that situation); a corrupt stored
      user crashes every reload; a quota failure leaves a live but
      unpersisted session with an error toast; [success: false] replies
      to profile and publish are dropped silently; the admin check does
      not look at the session; negative prices are sent.

    ** Bounds and fuel
    The JSON parser takes the length of the remaining text as fuel: each
    step consumes a character, so the fuel never runs out on a text it
    accepts (the round trip proves it for every stored user). [digits]
    takes [log2 n] as fuel, enough since [n < 10^(log2 n + 1)];
    [strip_zeros] takes the negative exponent, one step per trailing
    zero. [parseFloat] rounds to the nearest double; it decides values of
    at least [10^310] ([Infinity]) and below [10^-400] ([0]) without
    computing their power of ten, both beyond the double range
    ([2^1024], [2^-1075]). Ids from the server are [Z]: the model does
    not bound them by [2^53] as doubles would.

    ** Not modelled
    The servers behind [API_URLS] (only the reply contract of the spec
    is assumed); rendering, the UI library, icons and the toast renderer
    (toasts are recorded as values); [FileReader] timing (an upload event
    carries the data URL it produced and is enabled only while its form
    is shown, where the real [onloadend] may fire later); Unicode white
    space beyond ASCII in [parseFloat]; [console.error]'s second
    argument. The stored user is modelled as the [User] the page reads:
    [JSON.stringify(data.user)] is taken to write the five interface
    fields in their declared order over 8-bit characters, and the parser
    accepts exactly such objects, so valid JSON that is not a complete
    user (a missing field, a non-integer id) counts as a [JSON.parse]
    failure although the browser would accept it; the crash theorem is
    stated for texts the parser rejects and instantiated with
    [undefined], which the browser rejects too. *)

From stdpp Require Export base gmap strings list.
From Stdlib Require Export ZArith.
From Stdlib Require Import Ascii.

(** ** JavaScript values used throughout *)

Declare Scope js_scope.
Delimit Scope js_scope with js.

(** JS truthiness of a string: only the empty string is falsy. *)
Definition str_truthy (s : string) : bool := negb (String.eqb s "").

(** [o || d] for a value that is either absent ([undefined]/[null]) or
    present; every present value the code applies it to (arrays) is truthy. *)
Notation "o '||?' d" := (default d o) (at level 50, left associativity) : js_scope.

Create Rewrite HintDb portfolio_rw.

(** ** Decimal digits in strings *)

Definition digit_of (c : Ascii.ascii) : option Z :=
  let n := Ascii.nat_of_ascii c in
  if (48 <=? n)%nat && (n <=? 57)%nat then Some (Z.of_nat n - 48)%Z else None.

(** The longest prefix of decimal digits, with its value and length. *)
Fixpoint span_digits_from (acc : Z) (len : nat) (s : string) : Z * nat * string :=
  match s with
  | String c r =>
      match digit_of c with
      | Some d => span_digits_from (acc * 10 + d)%Z (S len) r
      | None => (acc, len, s)
      end
  | EmptyString => (acc, len, s)
  end.

Definition span_digits (s : string) : Z * nat * string := span_digits_from 0 0 s.

(** The character of a decimal digit [0 <= d < 10]. *)
Definition digit_char (d : Z) : Ascii.ascii := Ascii.ascii_of_nat (48 + Z.to_nat d).

Lemma digit_of_char d : (0 <= d < 10)%Z -> digit_of (digit_char d) = Some d.
Proof.
  intros Hd. unfold digit_of, digit_char.
  rewrite Ascii.nat_ascii_embedding by lia.
  replace (48 <=? 48 + Z.to_nat d)%nat with true by (symmetry; apply Nat.leb_le; lia).
  replace (48 + Z.to_nat d <=? 57)%nat with true by (symmetry; apply Nat.leb_le; lia).
  simpl. f_equal. lia.
Qed.

Lemma digit_of_range c d : digit_of c = Some d -> (0 <= d < 10)%Z.
Proof.
  unfold digit_of. destruct ((48 <=? _)%nat && _) eqn:E; [|done].
  apply andb_prop in E as [E1 E2]. apply Nat.leb_le in E1, E2. intros [= <-]. lia.
Qed.

(** ** String concatenation *)

Lemma str_app_assoc (s1 s2 s3 : string) : ((s1 ++ s2) ++ s3 = s1 ++ (s2 ++ s3))%string.
Proof. induction s1 as [|c s1 IH]; [reflexivity | exact (f_equal (String c) IH)]. Qed.

Lemma str_app_nil_r (s : string) : (s ++ "")%string = s.
Proof. induction s as [|c s IH]; [reflexivity | exact (f_equal (String c) IH)]. Qed.

Lemma str_length_app (s1 s2 : string) : String.length (s1 ++ s2)%string = String.length s1 + String.length s2.
Proof. induction s1 as [|c s1 IH]; [reflexivity | exact (f_equal S IH)]. Qed.

#[export] Hint Rewrite str_app_assoc str_length_app : portfolio_rw.

(** [String.append] is [simpl never] in stdpp; this is its step. *)
Lemma str_app_cons c (s1 s2 : string) : (String c s1 ++ s2)%string = String c (s1 ++ s2)%string.
Proof. reflexivity. Qed.

Lemma str_app_nil_l (s : string) : ("" ++ s)%string = s.
Proof. reflexivity. Qed.

(** Exceptions the modelled code can raise. *)
Inductive exn :=
| NetworkError          (* fetch rejects: network unreachable, CORS, ... *)
| SyntaxError           (* response.json() / JSON.parse on malformed text *)
| QuotaExceededError.   (* localStorage.setItem over the storage quota *)

(** ** A state-and-exception monad with JavaScript semantics

    A JS statement sequence mutates state and may throw; a throw keeps
    every mutation made before it ([Thrown] carries the state reached),
    which is what [try { ... } catch { ... }] observes. *)
Inductive outcome (S A : Type) :=
| Normal (a : A) (s : S)
| Thrown (e : exn) (s : S).
Arguments Normal {S A} a s.
Arguments Thrown {S A} e s.

Definition js (S A : Type) := S -> outcome S A.

Definition js_ret {S A} (a : A) : js S A := fun s => Normal a s.
Definition js_bind {S A B} (c : js S A) (k : A -> js S B) : js S B :=
  fun s => match c s with
           | Normal a s' => k a s'
           | Thrown e s' => Thrown e s'
           end.
Definition js_throw {S A} (e : exn) : js S A := fun s => Thrown e s.
Definition js_modify {S} (f : S -> S) : js S unit := fun s => Normal tt (f s).
Definition js_get {S} : js S S := fun s => Normal s s.

(** [try { c } catch (e) { h e }] *)
Definition js_try {S A} (c : js S A) (h : exn -> js S A) : js S A :=
  fun s => match c s with
           | Normal a s' => Normal a s'
           | Thrown e s' => h e s'
           end.

(** The final state of a statement sequence, whether it threw or not. *)
Definition final_state {S A} (o : outcome S A) : S :=
  match o with Normal _ s => s | Thrown _ s => s end.

(** The monad is used through stdpp's notation [x ← c; k] and [c ;; k]. *)
#[export] Instance js_mret {S} : MRet (js S) := fun A a => js_ret a.
#[export] Instance js_mbind {S} : MBind (js S) := fun A B k c => js_bind c k.

Create HintDb portfolio discriminated.

(** [js_defs] holds the definitions of the modelled code's statements:
    [run_js] unfolds them and reduces, which executes a handler on a
    symbolic state down to the branches on unknown data. *)
Create HintDb js_defs discriminated.

Arguments js_bind {S A B} c k s /.
Arguments js_get {S} s /.
Arguments js_modify {S} f s /.
Arguments js_ret {S A} a s /.
Arguments js_throw {S A} e s /.
Arguments js_try {S A} c h s /.
Arguments js_mbind {S} A B k c /.
Arguments js_mret {S} A a /.
Arguments mbind {M MBind A B} f x /.
Arguments mret {M MRet A} x /.

(** The monad's primitives are left to [simpl], which unfolds them as
    they reduce; unfolding them eagerly would copy the state record at
    every statement. *)
Ltac run_js := repeat (progress (autounfold with js_defs; simpl)).
(** Execute, splitting on every branch the state does not decide. *)
Ltac run_js_cases := run_js; repeat (case_match; run_js; simpl in *; simplify_eq/=).
Ltac run_js_in H := autounfold with js_defs in H; simpl in H.
#[export] Hint Constants Opaque : portfolio.
#[export] Hint Variables Opaque : portfolio.
#[export] Hint Projections Opaque : portfolio.

(** ** Generic lemmas *)

Lemma str_truthy_false s : str_truthy s = false <-> s = "".
Proof. unfold str_truthy. rewrite negb_false_iff, String.eqb_eq. done. Qed.

Lemma str_truthy_true s : str_truthy s = true <-> s <> "".
Proof.
  unfold str_truthy. rewrite negb_true_iff, <- not_true_iff_false, String.eqb_eq.
  done.
Qed.

(** Turns the truthiness tests of strings in the hypotheses into
    (in)equalities with the empty string. *)
Ltac str_truthy_hyps :=
  repeat match goal with
  | H : str_truthy _ = true |- _ => apply str_truthy_true in H
  | H : str_truthy _ = false |- _ => apply str_truthy_false in H
  end.

Lemma js_bind_ret_l {S A B} (a : A) (k : A -> js S B) s :
  js_bind (js_ret a) k s = k a s.
Proof. reflexivity. Qed.

Lemma js_bind_assoc {S A B C} (c : js S A) (k1 : A -> js S B) (k2 : B -> js S C) s :
  js_bind (js_bind c k1) k2 s = js_bind c (fun a => js_bind (k1 a) k2) s.
Proof. unfold js_bind. by destruct (c s). Qed.

Lemma js_try_normal {S A} (c : js S A) h s a s' :
  c s = Normal a s' -> js_try c h s = Normal a s'.
Proof. unfold js_try. by intros ->. Qed.

Lemma js_try_thrown {S A} (c : js S A) h s e s' :
  c s = Thrown e s' -> js_try c h s = h e s'.
Proof. unfold js_try. by intros ->. Qed.

#[export] Hint Rewrite @js_bind_ret_l @js_bind_assoc : portfolio_rw.
#[export] Hint Resolve js_try_normal js_try_thrown : portfolio.

Lemma js_mbind_unfold {S A B} (c : js S A) (k : A -> js S B) s :
  (c ≫= k) s = match c s with Normal a s' => k a s' | Thrown e s' => Thrown e s' end.
Proof. reflexivity. Qed.
