(* ===== verification/Model.v ===== *)
(** * The data model of [src/pages/Index.tsx]

    The [User] and [Work] interfaces (lines 20-37), the admin secret
    (line 39), the enumerations behind the string-literal state types
    (lines 46, 48), the three form objects (lines 55-57) and the argument
    of [toast] (the notification hook, an external collaborator). *)

From S2P Require Import Prelude.

(** A JS number as the code produces it: a finite value [m * 10^e],
    [NaN], or an infinity. The finite values [parseFloat] yields are
    doubles, written as the exact decimals they denote (Gallery.v rounds
    to them). Ids from the server are integers and are kept as [Z],
    without the [2^53] bound of exact integers in a double. *)
Inductive number :=
| Finite (m : Z) (e : Z)
| NaN
| Infinity (negative : bool).

(** [interface User] (lines 20-26). *)
Record User := mkUser {
  id : Z;
  username : string;
  nickname : string;
  avatar_url : option string;
  is_admin : bool
}.

(** [interface Work] (lines 28-37); the field [id] is [wid] here, since
    Rocq projections share one namespace with [User]'s. *)
Record Work := mkWork {
  wid : Z;
  user_id : Z;
  title : string;
  description : option string;
  image_url : string;
  price : option number;
  created_at : string;
  author_nickname : option string
}.

(** [const ADMIN_PASSWORD] (line 39). *)
Definition ADMIN_PASSWORD : string := "Nast8292jw".

(** [currentView : 'gallery' | 'favorites' | 'settings'] (line 46). *)
Inductive View := VGallery | VFavorites | VSettings.

(** [authMode : 'login' | 'register'] (line 48). *)
Inductive AuthMode := Login | Register.

(** The string the code sends as [action] (line 104). *)
Definition auth_action (m : AuthMode) : string :=
  match m with Login => "login" | Register => "register" end.

(** [target : 'work' | 'avatar'] of [handleImageUpload] (line 174). *)
Inductive UploadTarget := TWork | TAvatar.

(** [authForm] (line 55). *)
Record AuthForm := mkAuthForm { af_username : string; af_password : string }.
(** [profileForm] (line 56). *)
Record ProfileForm := mkProfileForm {
  pf_nickname : string; pf_password : string; pf_avatar : string }.
(** [workForm] (line 57). *)
Record WorkForm := mkWorkForm {
  wf_title : string; wf_description : string; wf_price : string; wf_image : string }.

Definition emptyAuthForm := mkAuthForm "" "".
Definition emptyProfileForm := mkProfileForm "" "" "".
Definition emptyWorkForm := mkWorkForm "" "" "" "".

(** The argument of [toast({ title, description, variant })]. *)
Record Toast := mkToast {
  t_title : string;
  t_description : option string;
  t_destructive : bool
}.

#[export] Instance number_eq_dec : EqDecision number.
Proof. solve_decision. Defined.
#[export] Instance User_eq_dec : EqDecision User.
Proof. solve_decision. Defined.
#[export] Instance Work_eq_dec : EqDecision Work.
Proof. solve_decision. Defined.
#[export] Instance View_eq_dec : EqDecision View.
Proof. solve_decision. Defined.
#[export] Instance AuthMode_eq_dec : EqDecision AuthMode.
Proof. solve_decision. Defined.
#[export] Instance UploadTarget_eq_dec : EqDecision UploadTarget.
Proof. solve_decision. Defined.
#[export] Instance AuthForm_eq_dec : EqDecision AuthForm.
Proof. solve_decision. Defined.
#[export] Instance ProfileForm_eq_dec : EqDecision ProfileForm.
Proof. solve_decision. Defined.
#[export] Instance WorkForm_eq_dec : EqDecision WorkForm.
Proof. solve_decision. Defined.
#[export] Instance Toast_eq_dec : EqDecision Toast.
Proof. solve_decision. Defined.
