(* ===== verification/Storage.v ===== *)
(** * The Persistent Session Store: [window.localStorage]

    The code reads it at mount (lines 60-61), writes it on login and on a
    profile update (lines 110-111, 241) and clears it on logout (lines
    127-128). It is a browser API, modelled from its specification: a map
    from string keys to string values with a size quota; [setItem] throws
    [QuotaExceededError] when the new contents would exceed the quota, and
    leaves the store unchanged. The size counts the characters of every
    key and value (the browsers' accounting, in bytes here).

    [JSON.stringify]/[JSON.parse] of the stored user are the [JsonCodec]
    interface: the session logic is proved against its laws, and
    [Json.v] implements it. *)

From S2P Require Import Prelude Model.

Record Storage := mkStorage { items : gmap string string; quota : nat }.

(** Characters held by the store. *)
Definition used (m : gmap string string) : nat :=
  map_fold (fun k v acc => String.length k + String.length v + acc) 0 m.

(** [localStorage.getItem(k)]: [null] is [None]. *)
Definition getItem (k : string) (st : Storage) : option string := items st !! k.

(** [localStorage.setItem(k, v)]: [None] when it throws. *)
Definition setItem (k v : string) (st : Storage) : option Storage :=
  if decide (used (<[k:=v]> (items st)) <= quota st)
  then Some (mkStorage (<[k:=v]> (items st)) (quota st)) else None.

(** [localStorage.removeItem(k)]: never throws. *)
Definition removeItem (k : string) (st : Storage) : Storage :=
  mkStorage (delete k (items st)) (quota st).

(** The keys the code uses. *)
Definition KEY_USER : string := "user".
Definition KEY_TOKEN : string := "token".

(** [JSON.stringify] and [JSON.parse] restricted to the values stored
    under ["user"]: [parse] answers [None] when [JSON.parse] throws and
    [Some None] for the text [null]. *)
Class JsonCodec (A : Type) := {
  stringify : A -> string;
  parse : string -> option (option A);
  parse_stringify : forall a, parse (stringify a) = Some (Some a);
  parse_null : parse "null" = Some None;
  parse_undefined : parse "undefined" = None;
  parse_empty : parse "" = None
}.

(** A serialised value is never the empty string, so it is truthy. *)
Lemma stringify_nonempty `{JsonCodec A} (a : A) : stringify a <> "".
Proof. intros He. pose proof (parse_stringify a) as Hp. rewrite He, parse_empty in Hp. discriminate. Qed.

(** [JSON.stringify(x)] of a value that may be [undefined], as stored by
    [setItem], which converts [undefined] to the string ["undefined"]. *)
Definition stringify_opt `{JsonCodec A} (o : option A) : string :=
  match o with Some a => stringify a | None => "undefined" end.

(** [String(data.token)] as stored by [setItem] (line 111). *)
Definition string_of_opt (o : option string) : string :=
  match o with Some s => s | None => "undefined" end.

(** ** Lemmas *)

Section storage_lemmas.
Implicit Types (st : Storage) (k v : string) (m : gmap string string).

Lemma used_comm k1 k2 (v1 v2 : string) (acc : nat) :
  String.length k1 + String.length v1 + (String.length k2 + String.length v2 + acc) =
  String.length k2 + String.length v2 + (String.length k1 + String.length v1 + acc).
Proof. lia. Qed.

Lemma used_delete_le k m : used (delete k m) <= used m.
Proof.
  unfold used. destruct (m !! k) as [v|] eqn:Hk.
  - rewrite (map_fold_delete_L _ _ k v m); [lia | intros; apply used_comm | done].
  - by rewrite delete_id.
Qed.

Lemma getItem_setItem_eq k v st st' :
  setItem k v st = Some st' -> getItem k st' = Some v.
Proof.
  unfold setItem, getItem. case_decide; intros; simplify_eq/=.
  apply lookup_insert_eq.
Qed.

Lemma getItem_setItem_ne k k' v st st' :
  k <> k' -> setItem k v st = Some st' -> getItem k' st' = getItem k' st.
Proof.
  unfold setItem, getItem. case_decide; intros; simplify_eq/=.
  by apply lookup_insert_ne.
Qed.

Lemma getItem_removeItem_eq k st : getItem k (removeItem k st) = None.
Proof. apply lookup_delete_eq. Qed.

Lemma getItem_removeItem_ne k k' st :
  k <> k' -> getItem k' (removeItem k st) = getItem k' st.
Proof. intros. by apply lookup_delete_ne. Qed.

(** A failing [setItem] is exactly an over-quota write. *)
Lemma setItem_None k v st :
  setItem k v st = None <-> quota st < used (<[k:=v]> (items st)).
Proof. unfold setItem. case_decide; split; intros; simplify_eq; done || lia. Qed.

(** The store never holds more than its quota. *)
Definition within_quota st : Prop := used (items st) <= quota st.

Lemma setItem_within_quota k v st st' :
  setItem k v st = Some st' -> within_quota st'.
Proof. unfold setItem, within_quota. case_decide; intros; simplify_eq/=; lia. Qed.

Lemma removeItem_within_quota k st :
  within_quota st -> within_quota (removeItem k st).
Proof.
  unfold within_quota, removeItem; cbn [items quota]. intros H.
  pose proof (used_delete_le k (items st)). lia.
Qed.
End storage_lemmas.

#[export] Hint Resolve getItem_setItem_eq getItem_removeItem_eq
  setItem_within_quota removeItem_within_quota : portfolio.
