(* ===== verification/Json.v ===== *)
(** * [JSON.stringify] and [JSON.parse] of the stored user

    An implementation of the [JsonCodec User] interface of Storage.v.
    [stringify] is what [JSON.stringify(user)] writes for a user object
    with the fields of [interface User] in declaration order (an absent
    [avatar_url] is omitted). [parse] follows [JSON.parse] on the texts
    that denote [null] or an object of scalars; it answers [None] where
    [JSON.parse] throws and also where the value is not a [User] (an
    object missing a field, a nested value, a non-integer number, a
    [\u] escape outside ASCII): those values are outside the model.
    The round trip [parse (stringify u) = Some (Some u)] is the law the
    session logic relies on. *)

From Stdlib Require Import Ascii.
From S2P Require Import Prelude Model Storage.

Local Open Scope string_scope.

Definition dq : ascii := ascii_of_nat 34.   (* the double quote *)
Definition bs : ascii := ascii_of_nat 92.   (* the backslash *)

(** ** Integers *)

(** The decimal digits of [0 <= n], most significant first. *)
Fixpoint digits_fuel (f : nat) (n : Z) : list Z :=
  match f with
  | O => [n]
  | S f' => if (n <? 10)%Z then [n] else digits_fuel f' (n / 10) ++ [n mod 10]%Z
  end.

Definition digits (n : Z) : list Z := digits_fuel (Z.to_nat (Z.log2 n)) n.

Fixpoint str_of_digits (ds : list Z) : string :=
  match ds with [] => "" | d :: ds' => String (digit_char d) (str_of_digits ds') end.

Definition print_Z (z : Z) : string :=
  if (z <? 0)%Z then String "-" (str_of_digits (digits (- z))) else str_of_digits (digits z).

Definition digits_value (ds : list Z) (v0 : Z) : Z := foldl (fun acc d => acc * 10 + d)%Z v0 ds.

(** ** Strings *)

Definition hex_char (d : nat) : ascii := if (d <? 10)%nat then ascii_of_nat (48 + d) else ascii_of_nat (87 + d).

(** The escape of one character, as [JSON.stringify] writes it. *)
Definition escape_char (c : ascii) : string :=
  let n := nat_of_ascii c in
  if (n =? 34)%nat then String bs (String dq "")
  else if (n =? 92)%nat then String bs (String bs "")
  else if (n =? 8)%nat then String bs "b"
  else if (n =? 9)%nat then String bs "t"
  else if (n =? 10)%nat then String bs "n"
  else if (n =? 12)%nat then String bs "f"
  else if (n =? 13)%nat then String bs "r"
  else if (n <? 32)%nat then String bs (String "u" (String "0" (String "0"
         (String (hex_char (n / 16)) (String (hex_char (n mod 16)) "")))))
  else String c "".

Fixpoint escape (s : string) : string :=
  match s with "" => "" | String c s' => escape_char c ++ escape s' end.

Definition quote (s : string) : string := String dq (escape s ++ String dq "").

(** ** The printer *)

Definition member (k v : string) : string := quote k ++ ":" ++ v.

(** [JSON.stringify(user)]. *)
Definition stringify_user (u : User) : string :=
  "{" ++ member "id" (print_Z (id u)) ++ "," ++
  member "username" (quote (username u)) ++ "," ++
  member "nickname" (quote (nickname u)) ++ "," ++
  match avatar_url u with Some a => member "avatar_url" (quote a) ++ "," | None => "" end ++
  member "is_admin" (if is_admin u then "true" else "false") ++ "}".

(** ** The parser *)

(** The values an object member may hold in a stored user. *)
Inductive scalar := Snull | Sbool (b : bool) | Sint (z : Z) | Sstr (s : string).

Definition is_json_ws (c : ascii) : bool :=
  let n := nat_of_ascii c in (n =? 32)%nat || (n =? 9)%nat || (n =? 10)%nat || (n =? 13)%nat.

Fixpoint skip_ws (s : string) : string :=
  match s with String c r => if is_json_ws c then skip_ws r else s | "" => "" end.

Definition hex_val (c : ascii) : option nat :=
  let n := nat_of_ascii c in
  if (48 <=? n)%nat && (n <=? 57)%nat then Some (n - 48)
  else if (97 <=? n)%nat && (n <=? 102)%nat then Some (n - 87)
  else if (65 <=? n)%nat && (n <=? 70)%nat then Some (n - 55)
  else None.

(** One character of a string literal other than its closing quote. *)
Definition parse_char (s : string) : option (ascii * string) :=
  match s with
  | String c r =>
      let n := nat_of_ascii c in
      if (n =? 92)%nat then
        match r with
        | String e r' =>
            let m := nat_of_ascii e in
            if (m =? 34)%nat then Some (dq, r')
            else if (m =? 92)%nat then Some (bs, r')
            else if (m =? 47)%nat then Some (ascii_of_nat 47, r')
            else if (m =? 98)%nat then Some (ascii_of_nat 8, r')
            else if (m =? 102)%nat then Some (ascii_of_nat 12, r')
            else if (m =? 110)%nat then Some (ascii_of_nat 10, r')
            else if (m =? 114)%nat then Some (ascii_of_nat 13, r')
            else if (m =? 116)%nat then Some (ascii_of_nat 9, r')
            else if (m =? 117)%nat then
              match r' with
              | String h1 (String h2 (String h3 (String h4 r''))) =>
                  match hex_val h1, hex_val h2, hex_val h3, hex_val h4 with
                  | Some a, Some b, Some c, Some d =>
                      let code := ((a * 16 + b) * 16 + c) * 16 + d in
                      if (code <? 128)%nat then Some (ascii_of_nat code, r'') else None
                  | _, _, _, _ => None
                  end
              | _ => None
              end
            else None
        | "" => None
        end
      else if (n <? 32)%nat || (n =? 34)%nat then None
      else Some (c, r)
  | "" => None
  end.

(** The body of a string literal up to and including its closing quote. *)
Fixpoint parse_str_body (fuel : nat) (s : string) : option (string * string) :=
  match fuel with
  | O => None
  | S f =>
      match s with
      | String c r =>
          if (nat_of_ascii c =? 34)%nat then Some ("", r)
          else match parse_char s with
               | Some (c', r') =>
                   match parse_str_body f r' with
                   | Some (t, r'') => Some (String c' t, r'')
                   | None => None
                   end
               | None => None
               end
      | "" => None
      end
  end.

Definition split_sign (s : string) : bool * string :=
  match s with String "-" r => (true, r) | _ => (false, s) end.

Definition starts_with_zero (t : string) : bool :=
  match t with String "0" _ => true | _ => false end.

Definition starts_fraction (r : string) : bool :=
  match r with String c _ => (c =? ".")%char || (c =? "e")%char || (c =? "E")%char | "" => false end.

(** A JSON integer: an optional minus, then [0] or digits not starting
    with [0]; a fraction or exponent makes it a non-integer. *)
Definition parse_int (s : string) : option (Z * string) :=
  let '(neg, t) := split_sign s in
  let '(v, n, r) := span_digits t in
  if (n =? 0)%nat || (starts_with_zero t && (1 <? n)%nat) || starts_fraction r then None
  else Some (if neg then - v else v, r)%Z.

Definition parse_scalar (s : string) : option (scalar * string) :=
  match s with
  | String "n" (String "u" (String "l" (String "l" r))) => Some (Snull, r)
  | String "t" (String "r" (String "u" (String "e" r))) => Some (Sbool true, r)
  | String "f" (String "a" (String "l" (String "s" (String "e" r)))) => Some (Sbool false, r)
  | String c r =>
      if (nat_of_ascii c =? 34)%nat then
        match parse_str_body (String.length r) r with
        | Some (t, r') => Some (Sstr t, r')
        | None => None
        end
      else match parse_int s with Some (z, r') => Some (Sint z, r') | None => None end
  | "" => None
  end.

(** The members of an object after its [{], up to its [}]. *)
Fixpoint parse_members (fuel : nat) (s : string) (acc : list (string * scalar))
    : option (list (string * scalar) * string) :=
  match fuel with
  | O => None
  | S f =>
      match skip_ws s with
      | String c r =>
          if (nat_of_ascii c =? 34)%nat then
            match parse_str_body (String.length r) r with
            | Some (k, r1) =>
                match skip_ws r1 with
                | String ":" r2 =>
                    match parse_scalar (skip_ws r2) with
                    | Some (v, r3) =>
                        match skip_ws r3 with
                        | String "," r4 => parse_members f r4 (acc ++ [(k, v)])%list
                        | String "}" r4 => Some ((acc ++ [(k, v)])%list, r4)
                        | _ => None
                        end
                    | None => None
                    end
                | _ => None
                end
            | None => None
            end
          else None
      | "" => None
      end
  end.

(** [JSON.parse]'s duplicate keys: the last one wins. *)
Definition lookup_member (k : string) (fs : list (string * scalar)) : option scalar :=
  foldl (fun acc '(k', v) => if String.eqb k' k then Some v else acc) None fs.

Definition user_of_members (fs : list (string * scalar)) : option User :=
  match lookup_member "id" fs, lookup_member "username" fs,
        lookup_member "nickname" fs, lookup_member "is_admin" fs with
  | Some (Sint i), Some (Sstr un), Some (Sstr nn), Some (Sbool adm) =>
      match lookup_member "avatar_url" fs with
      | None | Some Snull => Some (mkUser i un nn None adm)
      | Some (Sstr a) => Some (mkUser i un nn (Some a) adm)
      | Some _ => None
      end
  | _, _, _, _ => None
  end.

(** [JSON.parse(text)] as a stored user: [Some None] for [null]. *)
Definition parse_user (text : string) : option (option User) :=
  match skip_ws text with
  | String "n" (String "u" (String "l" (String "l" r))) =>
      if String.eqb (skip_ws r) "" then Some None else None
  | String "{" r =>
      match parse_members (String.length r) r [] with
      | Some (fs, r') =>
          if String.eqb (skip_ws r') "" then
            match user_of_members fs with Some u => Some (Some u) | None => None end
          else None
      | None => None
      end
  | _ => None
  end.

(** ** The round trip [parse_user (stringify_user u) = Some (Some u)] *)

Section roundtrip.
#[local] Arguments String.append : simpl nomatch.

(** Each character's escape decodes to it, and none starts with a
    closing quote (checked on the 256 characters). *)
Lemma parse_char_escape c rest : parse_char (escape_char c ++ rest) = Some (c, rest).
Proof. destruct c as [[] [] [] [] [] [] [] []]; reflexivity. Qed.

Lemma escape_char_head c rest :
  exists c0 r0, (escape_char c ++ rest)%string = String c0 r0 /\ (nat_of_ascii c0 =? 34)%nat = false.
Proof. destruct c as [[] [] [] [] [] [] [] []]; eexists _, _; split; reflexivity. Qed.

Lemma escape_char_length c : 1 <= String.length (escape_char c).
Proof. destruct c as [[] [] [] [] [] [] [] []]; simpl; lia. Qed.

Lemma parse_str_body_escape s rest f :
  String.length (escape s) < f ->
  parse_str_body f (escape s ++ String dq rest) = Some (s, rest).
Proof.
  revert f. induction s as [|c s IH]; intros f Hf; destruct f as [|f]; try lia; [done|].
  simpl escape in *. rewrite str_length_app in Hf. pose proof (escape_char_length c).
  rewrite str_app_assoc.
  destruct (escape_char_head c (escape s ++ String dq rest)) as (c0 & r0 & Heq & Hc0).
  simpl. rewrite Heq, Hc0. rewrite <- Heq, parse_char_escape, IH by lia. done.
Qed.

Lemma parse_scalar_quote s rest :
  parse_scalar (quote s ++ rest) = Some (Sstr s, rest).
Proof.
  unfold quote. simpl. rewrite str_app_assoc. simpl.
  rewrite parse_str_body_escape; [done|]. rewrite str_length_app. simpl. lia.
Qed.

(** *** Integers *)

Definition digit_range (d : Z) : Prop := (0 <= d < 10)%Z.

Lemma digits_fuel_spec f n :
  (0 <= n < 10 ^ Z.of_nat (S f))%Z ->
  Forall digit_range (digits_fuel f n) /\ digits_value (digits_fuel f n) 0 = n /\
  exists d ds, digits_fuel f n = d :: ds /\ ((1 <= n)%Z -> d <> 0%Z) /\ (d = 0%Z -> ds = []).
Proof.
  revert n. induction f as [|f IH]; intros n Hn; simpl.
  - rewrite Z.pow_1_r in Hn. split; [|split]; [apply Forall_singleton; unfold digit_range; lia | |].
    + unfold digits_value; simpl; lia.
    + eexists _, []. split; [done|]. split; [lia | done].
  - destruct (Z.ltb_spec n 10).
    + split; [|split]; [apply Forall_singleton; unfold digit_range; lia | unfold digits_value; simpl; lia |].
      eexists _, []. split; [done|]. split; [lia | done].
    + destruct (IH (n / 10)%Z) as (Hr & Hv & d & ds & Hds & Hnz & Hz).
      { split; [apply Z.div_pos; lia|]. apply Z.div_lt_upper_bound; [lia|].
        rewrite Nat2Z.inj_succ, Z.pow_succ_r in Hn by lia. lia. }
      split; [|split].
      * apply Forall_app; split; [done|]. constructor; [unfold digit_range; apply Z.mod_pos_bound; lia | done].
      * unfold digits_value in *. rewrite foldl_app, Hv. simpl.
        pose proof (Z.div_mod n 10). lia.
      * rewrite Hds. exists d, (ds ++ [(n mod 10)%Z])%list. split; [done|].
        assert (1 <= n / 10)%Z by (apply Z.div_le_lower_bound; lia).
        split; [intros _; apply Hnz; lia|]. intros ->. exfalso. by apply Hnz.
Qed.

Lemma digits_bound n : (0 <= n)%Z -> (n < 10 ^ Z.of_nat (S (Z.to_nat (Z.log2 n))))%Z.
Proof.
  intros Hn. rewrite Nat2Z.inj_succ, Z2Nat.id by (apply Z.log2_nonneg).
  destruct (decide (n = 0%Z)) as [->|Hn0]; [reflexivity|].
  pose proof (Z.log2_spec n ltac:(lia)) as [_ Hlt].
  eapply Z.lt_le_trans; [exact Hlt|]. apply Z.pow_le_mono_l. lia.
Qed.

Lemma digits_spec n :
  (0 <= n)%Z ->
  Forall digit_range (digits n) /\ digits_value (digits n) 0 = n /\
  exists d ds, digits n = d :: ds /\ ((1 <= n)%Z -> d <> 0%Z) /\ (d = 0%Z -> ds = []).
Proof. intros Hn. apply digits_fuel_spec. split; [done|]. by apply digits_bound. Qed.

Lemma span_digits_from_cons v l c r :
  span_digits_from v l (String c r) =
    match digit_of c with Some d => span_digits_from (v * 10 + d)%Z (S l) r | None => (v, l, String c r) end.
Proof. reflexivity. Qed.

Lemma span_str_of_digits ds v l c r :
  Forall digit_range ds -> digit_of c = None ->
  span_digits_from v l (str_of_digits ds ++ String c r) = (digits_value ds v, l + length ds, String c r)%nat.
Proof.
  revert v l. induction ds as [|d ds IH]; intros v l Hds Hc.
  - change (str_of_digits [] ++ String c r)%string with (String c r).
    rewrite span_digits_from_cons, Hc. by rewrite Nat.add_0_r.
  - apply Forall_cons in Hds as [Hd Hds]. simpl str_of_digits. rewrite str_app_cons.
    rewrite span_digits_from_cons, digit_of_char by done. rewrite IH by done.
    simpl. by rewrite Nat.add_succ_r.
Qed.

Lemma digit_cases d : digit_range d ->
  d = 0%Z \/ d = 1%Z \/ d = 2%Z \/ d = 3%Z \/ d = 4%Z \/ d = 5%Z \/ d = 6%Z \/ d = 7%Z \/ d = 8%Z \/ d = 9%Z.
Proof. unfold digit_range. lia. Qed.

Ltac by_digit d := let H := fresh in
  intros H; destruct (digit_cases d H) as [->|[->|[->|[->|[->|[->|[->|[->|[->| ->]]]]]]]]]; reflexivity.

Lemma split_sign_digit d x : digit_range d -> split_sign (String (digit_char d) x) = (false, String (digit_char d) x).
Proof. by_digit d. Qed.

Lemma starts_with_zero_digit d x : digit_range d -> starts_with_zero (String (digit_char d) x) = bool_decide (d = 0%Z).
Proof. by_digit d. Qed.

Lemma skip_ws_digit d x : digit_range d -> skip_ws (String (digit_char d) x) = String (digit_char d) x.
Proof. by_digit d. Qed.

Lemma parse_scalar_digit d x : digit_range d ->
  parse_scalar (String (digit_char d) x) =
    match parse_int (String (digit_char d) x) with Some (z, r') => Some (Sint z, r') | None => None end.
Proof. by_digit d. Qed.

(** The digits of [n >= 0] followed by a comma scan back to [n], and
    pass the checks of [parse_int]. *)
Lemma scan_digits_comma n r :
  (0 <= n)%Z ->
  span_digits (str_of_digits (digits n) ++ String "," r) = (n, length (digits n), String "," r) /\
  ((length (digits n) =? 0)%nat || (starts_with_zero (str_of_digits (digits n) ++ String "," r) &&
     (1 <? length (digits n))%nat) || starts_fraction (String "," r)) = false.
Proof.
  intros Hn. destruct (digits_spec n Hn) as (Hr & Hv & d & ds & Hds & Hnz & Hz).
  remember (digits n) as L eqn:HL. clear HL. subst L.
  unfold span_digits. rewrite span_str_of_digits by done. rewrite Hv.
  split; [done|]. apply Forall_cons in Hr as [Hd _].
  simpl str_of_digits. rewrite str_app_cons, starts_with_zero_digit by done.
  case_bool_decide as H0; [rewrite (Hz H0); reflexivity | reflexivity].
Qed.

Lemma parse_int_print z r : parse_int (print_Z z ++ String "," r) = Some (z, String "," r).
Proof.
  unfold print_Z. destruct (Z.ltb_spec z 0) as [Hz|Hz].
  - unfold parse_int. rewrite str_app_cons. simpl split_sign.
    destruct (scan_digits_comma (- z) r ltac:(lia)) as [-> ->]. f_equal. f_equal. lia.
  - destruct (digits_spec z Hz) as (Hr & _ & d & ds & Hds & _).
    unfold parse_int. rewrite Hds in Hr |- *. simpl str_of_digits. rewrite str_app_cons.
    apply Forall_cons in Hr as [Hd _]. rewrite split_sign_digit by done.
    rewrite <- str_app_cons. change (String (digit_char d) (str_of_digits ds)) with (str_of_digits (d :: ds)).
    rewrite <- Hds. by destruct (scan_digits_comma z r Hz) as [-> ->].
Qed.

Lemma parse_scalar_int z r : parse_scalar (print_Z z ++ String "," r) = Some (Sint z, String "," r).
Proof.
  assert (parse_scalar (print_Z z ++ String "," r) =
    match parse_int (print_Z z ++ String "," r) with Some (z', r') => Some (Sint z', r') | None => None end)
    as ->; [|by rewrite parse_int_print].
  unfold print_Z. destruct (Z.ltb_spec z 0); [reflexivity|].
  destruct (digits_spec z ltac:(lia)) as (Hr & _ & d & ds & Hds & _). rewrite Hds in Hr |- *.
  apply Forall_cons in Hr as [Hd _]. simpl str_of_digits. rewrite str_app_cons.
  by apply parse_scalar_digit.
Qed.

Lemma skip_ws_print_Z z r : skip_ws (print_Z z ++ r) = print_Z z ++ r.
Proof.
  unfold print_Z. destruct (Z.ltb_spec z 0); [reflexivity|].
  destruct (digits_spec z ltac:(lia)) as (Hr & _ & d & ds & Hds & _). rewrite Hds in Hr |- *.
  apply Forall_cons in Hr as [Hd _]. simpl str_of_digits. rewrite str_app_cons.
  by apply skip_ws_digit.
Qed.

(** *** Objects *)

Lemma skip_ws_dq r : skip_ws (String dq r) = String dq r.
Proof. reflexivity. Qed.


Lemma parse_members_member k v sv c rest f acc :
  skip_ws (v ++ String c rest) = (v ++ String c rest)%string ->
  parse_scalar (v ++ String c rest) = Some (sv, String c rest) ->
  parse_members (S f) (member k v ++ String c rest) acc =
    match skip_ws (String c rest) with
    | String "," r4 => parse_members f r4 (acc ++ [(k, sv)])%list
    | String "}" r4 => Some ((acc ++ [(k, sv)])%list, r4)
    | _ => None
    end.
Proof.
  intros Hws Hsc. unfold member, quote. rewrite !str_app_assoc. rewrite str_app_cons.
  cbn [parse_members]. rewrite skip_ws_dq.
  change (nat_of_ascii dq =? 34)%nat with true. cbn beta iota.
  rewrite !str_app_assoc, (str_app_cons dq "").
  rewrite parse_str_body_escape by (rewrite !str_length_app; simpl; lia).
  cbn beta iota. rewrite (str_app_cons ":" ""). simpl skip_ws at 1. cbn beta iota. rewrite Hws, Hsc. reflexivity. Qed.

Lemma skip_ws_quote t r : skip_ws (quote t ++ r) = (quote t ++ r)%string.
Proof. reflexivity. Qed.

Lemma member_length k v : 3 <= String.length (member k v).
Proof. unfold member, quote. rewrite !str_length_app. simpl. rewrite !str_length_app. simpl. lia. Qed.
End roundtrip.

Ltac member_step :=
  rewrite ?str_app_assoc, ?str_app_nil_l;
  rewrite ?(str_app_cons "," ""), ?(str_app_cons "}" ""), ?str_app_nil_l;
  erewrite parse_members_member;
  [ cbn [String.append]; simpl skip_ws at 1; cbn beta iota
  | rewrite ?str_app_assoc; first [apply skip_ws_quote | apply skip_ws_print_Z | reflexivity]
  | rewrite ?str_app_assoc; first [apply parse_scalar_quote | apply parse_scalar_int | reflexivity] ].

(** [JSON.parse(JSON.stringify(user))] gives the user back. *)
Lemma parse_stringify_user u : parse_user (stringify_user u) = Some (Some u).
Proof.
  destruct u as [i un nn av adm]. unfold parse_user, stringify_user; cbn [id username nickname avatar_url is_admin].
  rewrite (str_app_cons "{" ""). simpl skip_ws at 1. cbn beta iota.
  match goal with |- context [parse_members (String.length ?X) ?X []] =>
    assert (5 <= String.length X) as Hlen by
      (rewrite !str_length_app; pose proof (member_length "id" (print_Z i)); pose proof (member_length "username" (quote un)); simpl; lia);
    destruct (String.length X) as [|[|[|[|[|f]]]]]; try lia end.
  destruct av as [a|], adm; repeat member_step; reflexivity.
Qed.


#[export] Instance user_json : JsonCodec User := {|
  stringify := stringify_user;
  parse := parse_user;
  parse_stringify := parse_stringify_user;
  parse_null := eq_refl;
  parse_undefined := eq_refl;
  parse_empty := eq_refl
|}.
