(* ===== verification/Gateway.v ===== *)
(** * The Remote Gateway: the four HTTP resources of [API_URLS]

    [API_URLS] (lines 13-18) names four endpoints. Each [fetch] of the
    code is one [Request] constructor, carrying exactly the method, query
    parameters and JSON body the code builds. A reply is what the
    continuation observes after [await fetch(..)] and [await
    response.json()]: either a rejection ([RFailed]: network failure, or a
    body that is not JSON) or the parsed object, seen through the fields
    the code reads ([Body]). The server side is opaque; its published
    contract (spec section 6) is [reply_contract]. *)

From S2P Require Import Prelude Model.

Inductive Endpoint := EpAuth | EpWorks | EpFavorites | EpProfile.

(** [API_URLS] (lines 13-18). *)
Definition API_URL (e : Endpoint) : string :=
  match e with
  | EpAuth => "https://functions.poehali.dev/e445d838-01ac-4bef-abf9-ff55b9ed07dd"
  | EpWorks => "https://functions.poehali.dev/c4974bcd-1653-4cf5-9451-0fbcd03e4f84"
  | EpFavorites => "https://functions.poehali.dev/58b40516-0eac-49df-99d7-c99184260568"
  | EpProfile => "https://functions.poehali.dev/fa3b21f5-7e84-41eb-a8aa-fe1a4d7301db"
  end.

Inductive Method := GET | POST | PUT | DELETE.

(** The JSON values the code puts in a dynamically built body. *)
Inductive JVal := JNull | JBool (b : bool) | JNum (n : number) | JStr (s : string).

Inductive Request :=
(** [POST auth {action: authMode, ...authForm}] (lines 101-105). *)
| ReqAuth (action : AuthMode) (username password : string)
(** [GET works] (line 78). *)
| ReqWorksList
(** [POST works {user_id, title, description, image_data, price}] (lines 198-208). *)
| ReqWorksCreate (uid : Z) (title description image_data : string) (price : JVal)
(** [GET favorites?user_id=..] (line 89). *)
| ReqFavList (uid : Z)
(** [DELETE favorites?user_id=..&work_id=..] (line 143). *)
| ReqFavDelete (uid work : Z)
(** [POST favorites {user_id, work_id}] (lines 150-154). *)
| ReqFavAdd (uid work : Z)
(** [PUT profile updates]: the object built key by key (lines 227-236). *)
| ReqProfile (updates : list (string * JVal)).

Definition endpoint (r : Request) : Endpoint :=
  match r with
  | ReqAuth _ _ _ => EpAuth
  | ReqWorksList | ReqWorksCreate _ _ _ _ _ => EpWorks
  | ReqFavList _ | ReqFavDelete _ _ | ReqFavAdd _ _ => EpFavorites
  | ReqProfile _ => EpProfile
  end.

Definition method (r : Request) : Method :=
  match r with
  | ReqWorksList | ReqFavList _ => GET
  | ReqAuth _ _ _ | ReqWorksCreate _ _ _ _ _ | ReqFavAdd _ _ => POST
  | ReqFavDelete _ _ => DELETE
  | ReqProfile _ => PUT
  end.

(** The fields of [data] the continuations read. A field that is absent
    ([undefined]) is [None]; [data.success] is kept as its truthiness. *)
Record Body := mkBody {
  data_success : bool;
  data_user : option User;
  data_token : option string;
  data_error : option string;
  data_works : option (list Work);
  data_favorites : option (list Work)
}.

Inductive Reply :=
| RFailed            (* the awaited fetch or response.json() rejected *)
| ROk (b : Body).

(** The contract of spec section 6: a successful auth reply carries a user
    and a token, a successful profile reply carries the updated user. *)
Definition reply_contract (r : Request) (rep : Reply) : bool :=
  match r, rep with
  | ReqAuth _ _ _, ROk b =>
      negb (data_success b) || (bool_decide (is_Some (data_user b)) && bool_decide (is_Some (data_token b)))
  | ReqProfile _, ROk b => negb (data_success b) || bool_decide (is_Some (data_user b))
  | _, _ => true
  end.

#[export] Instance Endpoint_eq_dec : EqDecision Endpoint.
Proof. solve_decision. Defined.
#[export] Instance Method_eq_dec : EqDecision Method.
Proof. solve_decision. Defined.
#[export] Instance JVal_eq_dec : EqDecision JVal.
Proof. solve_decision. Defined.
#[export] Instance Request_eq_dec : EqDecision Request.
Proof. solve_decision. Defined.
#[export] Instance Body_eq_dec : EqDecision Body.
Proof. solve_decision. Defined.
#[export] Instance Reply_eq_dec : EqDecision Reply.
Proof. solve_decision. Defined.

Lemma reply_contract_auth_success m u p b :
  reply_contract (ReqAuth m u p) (ROk b) = true -> data_success b = true ->
  is_Some (data_user b) /\ is_Some (data_token b).
Proof.
  simpl. intros H Hs. rewrite Hs in H. simpl in H.
  apply andb_true_iff in H as [H1 H2]. by apply bool_decide_eq_true in H1, H2.
Qed.

Lemma reply_contract_profile_success ups b :
  reply_contract (ReqProfile ups) (ROk b) = true -> data_success b = true ->
  is_Some (data_user b).
Proof. simpl. intros H Hs. rewrite Hs in H. by apply bool_decide_eq_true in H. Qed.
