(* ===== verification/App.v ===== *)
(** * The state of the [Index] component and its effect primitives

    [Index] (src/pages/Index.tsx, line 41) keeps all client state in
    [useState] hooks (lines 42-57); [App] has one field per hook, and the
    setters keep the hooks' names. The rest of [App] is the environment
    the component acts on: the browser's [localStorage], the requests in
    flight with the continuation each will resume ([inflight]), the
    notifications shown ([toasts]) and [console.error] output.

    An [async] handler runs synchronously up to its first [await fetch];
    the rest of its body is a continuation ([Cont]) that runs when the
    reply arrives, carrying the values its closure captured. Nothing runs
    between [await fetch] and [await response.json()], so the two awaits
    are one continuation. [user_rev] counts the identities the [user]
    hook has held: React re-runs [useEffect(.., [user])] (lines 70-74)
    after a render in which it changed. *)

From S2P Require Import Prelude Model Storage Gateway.

(** The await points of the component's handlers, with their closures. *)
Inductive Cont :=
| KLoadWorks                                (* loadWorks, line 78 *)
| KLoadFavorites                            (* loadFavorites, line 89 *)
| KAuth (mode : AuthMode)                   (* handleAuth, line 101 *)
| KToggle (isFavorite : bool) (u : User) (workId : Z)  (* toggleFavorite, 143/150 *)
| KCreateWork                               (* handleCreateWork, line 198 *)
| KUpdateProfile.                           (* handleUpdateProfile, line 232 *)

Record Pending := mkPending { p_req : Request; p_cont : Cont }.

Record App := mkApp {
  user : option User;
  works : list Work;
  favorites : list Work;
  favoriteIds : gset Z;
  currentView : View;
  showAuthDialog : bool;
  authMode : AuthMode;
  isAdminMode : bool;
  showAdminDialog : bool;
  adminPassword : string;
  showWorkDialog : bool;
  selectedWork : option Work;
  authForm : AuthForm;
  profileForm : ProfileForm;
  workForm : WorkForm;
  user_rev : nat;
  storage : Storage;
  inflight : gmap nat Pending;
  next_req : nat;
  toasts : list Toast;
  console : list string
}.

Abbreviation act := (js App).

(** The first render: the [useState] initial values (lines 42-57). *)
Definition initialApp (st : Storage) : App := {|
  user := None; works := []; favorites := []; favoriteIds := ∅;
  currentView := VGallery; showAuthDialog := false; authMode := Login;
  isAdminMode := false; showAdminDialog := false; adminPassword := "";
  showWorkDialog := false; selectedWork := None;
  authForm := emptyAuthForm; profileForm := emptyProfileForm; workForm := emptyWorkForm;
  user_rev := 0; storage := st; inflight := ∅; next_req := 0; toasts := []; console := [] |}.

(** ** The hooks' setters *)

(** [setUser(v)]: a value other than [null] is a fresh object (it comes
    from [JSON.parse]), so the hook changes identity unless [null] is
    replaced by [null]. *)
Definition setUser (v : option User) : act unit :=
  js_modify (fun s => {| s with user := v;
    user_rev := match user s, v with None, None => user_rev s | _, _ => S (user_rev s) end |}).
Definition setWorks v : act unit := js_modify (fun s => {| s with works := v |}).
Definition setFavorites v : act unit := js_modify (fun s => {| s with favorites := v |}).
(** [setFavoriteIds(prev => f prev)] and [setFavoriteIds(v)]. *)
Definition updateFavoriteIds f : act unit := js_modify (fun s => {| s with favoriteIds := f (favoriteIds s) |}).
Definition setFavoriteIds v : act unit := updateFavoriteIds (fun _ => v).
Definition setCurrentView v : act unit := js_modify (fun s => {| s with currentView := v |}).
Definition setShowAuthDialog v : act unit := js_modify (fun s => {| s with showAuthDialog := v |}).
Definition setAuthMode v : act unit := js_modify (fun s => {| s with authMode := v |}).
Definition setIsAdminMode v : act unit := js_modify (fun s => {| s with isAdminMode := v |}).
Definition setShowAdminDialog v : act unit := js_modify (fun s => {| s with showAdminDialog := v |}).
Definition setAdminPassword v : act unit := js_modify (fun s => {| s with adminPassword := v |}).
Definition setShowWorkDialog v : act unit := js_modify (fun s => {| s with showWorkDialog := v |}).
Definition setSelectedWork v : act unit := js_modify (fun s => {| s with selectedWork := v |}).
Definition setAuthForm v : act unit := js_modify (fun s => {| s with authForm := v |}).
Definition setProfileForm v : act unit := js_modify (fun s => {| s with profileForm := v |}).
Definition setWorkForm v : act unit := js_modify (fun s => {| s with workForm := v |}).

(** ** Effects on the environment *)

(** [fetch(..)]: the request is sent and its continuation registered. *)
Definition fetch (r : Request) (k : Cont) : act unit :=
  js_modify (fun s => {| s with inflight := <[next_req s := mkPending r k]> (inflight s);
                                next_req := S (next_req s) |}).

Definition toast (t : Toast) : act unit :=
  js_modify (fun s => {| s with toasts := toasts s ++ [t] |}).

Definition console_error (msg : string) : act unit :=
  js_modify (fun s => {| s with console := console s ++ [msg] |}).

Definition ls_getItem (k : string) : act (option string) :=
  fun s => Normal (getItem k (storage s)) s.

Definition ls_setItem (k v : string) : act unit :=
  fun s => match setItem k v (storage s) with
           | Some st' => Normal tt {| s with storage := st' |}
           | None => Thrown QuotaExceededError s
           end.

Definition ls_removeItem (k : string) : act unit :=
  js_modify (fun s => {| s with storage := removeItem k (storage s) |}).

(** [JSON.parse(text)] of a stored user. *)
Definition json_parse `{JsonCodec User} (text : string) : act (option User) :=
  fun s => match parse text with
           | Some v => Normal v s
           | None => Thrown SyntaxError s
           end.

(** ** Lemmas on the primitives *)

Lemma js_modify_run (f : App -> App) s : js_modify f s = Normal tt (f s).
Proof. reflexivity. Qed.

Lemma ls_setItem_ok k v s st' :
  setItem k v (storage s) = Some st' -> ls_setItem k v s = Normal tt {| s with storage := st' |}.
Proof. unfold ls_setItem. by intros ->. Qed.

Lemma ls_setItem_fail k v s :
  setItem k v (storage s) = None -> ls_setItem k v s = Thrown QuotaExceededError s.
Proof. unfold ls_setItem. by intros ->. Qed.

(** [fetch] registers exactly one continuation, under a fresh id. *)
Lemma fetch_inflight r k s s' :
  fetch r k s = Normal tt s' ->
  inflight s' = <[next_req s := mkPending r k]> (inflight s) /\ next_req s' = S (next_req s).
Proof. cbn. by intros [= <-]. Qed.

(** The state a statement sequence leaves, whether or not it threw. *)
Definition exec (c : act unit) (s : App) : App := final_state (c s).

Lemma exec_js_modify f s : exec (js_modify f) s = f s.
Proof. reflexivity. Qed.

Lemma exec_bind_modify f (k : act unit) s : exec (js_modify f;; k) s = exec k (f s).
Proof. reflexivity. Qed.

#[export] Hint Rewrite js_modify_run exec_js_modify exec_bind_modify : portfolio_rw.

#[export] Hint Unfold exec : js_defs.

Arguments setUser v s /.
Arguments setWorks v s /.
Arguments setFavorites v s /.
Arguments updateFavoriteIds f s /.
Arguments setFavoriteIds v s /.
Arguments setCurrentView v s /.
Arguments setShowAuthDialog v s /.
Arguments setAuthMode v s /.
Arguments setIsAdminMode v s /.
Arguments setShowAdminDialog v s /.
Arguments setAdminPassword v s /.
Arguments setShowWorkDialog v s /.
Arguments setSelectedWork v s /.
Arguments setAuthForm v s /.
Arguments setProfileForm v s /.
Arguments setWorkForm v s /.
Arguments fetch r k s /.
Arguments toast t s /.
Arguments console_error msg s /.
Arguments ls_getItem k s /.
Arguments ls_removeItem k s /.
Arguments ls_setItem k v s /.
Arguments json_parse {_} text s /.
