(* ===== verification/Gallery.v ===== *)
(** * The Gallery Cache: [loadWorks] and [handleCreateWork]

    [loadWorks] (lines 76-84) fetches the works list and replaces
    [works] wholesale; a failure is only logged. [handleCreateWork]
    (lines 190-220) publishes a work when a user is signed in and the
    admin gate is on; the price text goes through [parseFloat] (line 206),
    modelled here on the ECMAScript grammar of [StrDecimalLiteral] with
    the rounding of its value to the nearest double (round half to even,
    subnormals, overflow to [Infinity], which [JSON.stringify] sends as
    [null]). *)

From Stdlib Require Import Ascii.
From S2P Require Import Prelude Model Storage Json Gateway App.

(** ** Rounding to a double

    [parseFloat] returns the double nearest to the decimal it reads
    (ECMAScript's "rounded value" of the mathematical value). A double is
    kept as the exact decimal it denotes, in the canonical form of
    [number]: exponent [0] for integers, otherwise no trailing zero. *)

Section rounding.
Local Open Scope Z_scope.

(** [n / d] rounded to the nearest integer, ties to even ([n >= 0], [d > 0]). *)
Definition round_half_even (n d : Z) : Z :=
  let q := n / d in let r := n mod d in
  if (d <? 2 * r) || ((2 * r =? d) && Z.odd q) then q + 1 else q.

(** Whether [p / q >= 2^k]. *)
Definition ge_pow2 (p q k : Z) : bool :=
  if 0 <=? k then q * 2 ^ k <=? p else q <=? p * 2 ^ (- k).

(** Removes the trailing zeros of [m] while the exponent is negative. *)
Fixpoint strip_zeros (fuel : nat) (m e : Z) : Z * Z :=
  match fuel with
  | O => (m, e)
  | S f => if (e <? 0) && (m mod 10 =? 0) then strip_zeros f (m / 10) (e + 1) else (m, e)
  end.

Definition decimal (m e : Z) : number :=
  let '(m', e') := strip_zeros (Z.to_nat (- e)) m e in Finite m' e'.

(** The double nearest to [p / q] ([p >= 0], [q > 0]) with sign [neg]:
    53 significant bits, ties to even, subnormals below [2^-1022], and
    [Infinity] when the rounded value reaches [2^1024]. [E] is the binary
    exponent of [p / q] ([2^E <= p / q < 2^(E+1)]), [2^s] the spacing of
    the doubles there. *)
Definition to_double (neg : bool) (p q : Z) : number :=
  if p =? 0 then Finite 0 0 else
  let e0 := Z.log2 p - Z.log2 q in
  let E := if ge_pow2 p q e0 then e0 else e0 - 1 in
  let s := Z.max (E - 52) (-1074) in
  let sgn x := if neg then - x else x in
  if 0 <=? s then
    let N := round_half_even p (q * 2 ^ s) in
    if 2 ^ 1024 <=? N * 2 ^ s then Infinity neg else Finite (sgn (N * 2 ^ s)) 0
  else
    let N := round_half_even (p * 2 ^ (- s)) q in
    decimal (sgn (N * 5 ^ (- s))) s.
End rounding.

(** ** [parseFloat] *)

Section parse_float.
Local Open Scope char_scope.

(** The white space [parseFloat] skips (the ASCII part of
    [StrWhiteSpaceChar]). *)
Definition is_ws (c : Ascii.ascii) : bool :=
  let n := Ascii.nat_of_ascii c in
  (n =? 32)%nat || ((9 <=? n)%nat && (n <=? 13)%nat).

Fixpoint trim_start (s : string) : string :=
  match s with
  | String c r => if is_ws c then trim_start r else s
  | EmptyString => EmptyString
  end.

(** [ExponentPart], when present: [e] or [E], an optional sign, digits. *)
Definition exponent_part (s : string) : option Z :=
  match s with
  | String c r =>
      if Ascii.eqb c "e" || Ascii.eqb c "E" then
        let '(neg, r') := match r with
                          | String "-" r' => (true, r')
                          | String "+" r' => (false, r')
                          | _ => (false, r)
                          end in
        let '(v, n, _) := span_digits r' in
        if (n =? 0)%nat then None else Some (if neg then - v else v)%Z
      else None
  | EmptyString => None
  end.

(** The unsigned part: [Infinity], or digits with an optional fraction
    and exponent, at least one digit in all, rounded to the nearest
    double. Values of at least [10^310] are past the largest double, and
    values below [10^-400] round to zero, so those are decided without
    computing the power of ten. *)
Definition parse_unsigned (s : string) (neg : bool) : number :=
  if String.prefix "Infinity" s then Infinity neg else
  let '(iv, il, r1) := span_digits s in
  let '(fv, fl, r2) :=
    match r1 with
    | String "." r => let '(v, n, r') := span_digits r in
                      (v, n, r')
    | _ => (0%Z, 0%nat, r1)
    end in
  if (il + fl =? 0)%nat then NaN else
  let m := (iv * 10 ^ Z.of_nat fl + fv)%Z in
  let e := (default 0%Z (exponent_part r2) - Z.of_nat fl)%Z in
  if (m =? 0)%Z then Finite 0 0 else
  if (310 <=? e)%Z then Infinity neg else
  if (e + Z.of_nat (il + fl) <? -400)%Z then Finite 0 0 else
  if (0 <=? e)%Z then to_double neg (m * 10 ^ e) 1 else to_double neg m (10 ^ (- e)).

(** [parseFloat(s)]. *)
Definition parseFloat (s : string) : number :=
  match trim_start s with
  | String "-" r => parse_unsigned r true
  | String "+" r => parse_unsigned r false
  | t => parse_unsigned t false
  end.
End parse_float.

(** [JSON.stringify] of a number: [NaN] and the infinities become [null]. *)
Definition json_number (n : number) : JVal :=
  match n with Finite _ _ => JNum n | _ => JNull end.

(** ** The handlers *)

(** [loadWorks] up to its [await] (lines 76-78). *)
Definition loadWorks : act unit := fetch ReqWorksList KLoadWorks.

(** Its continuation (lines 79-83). *)
Definition loadWorks_resume (r : Reply) : act unit :=
  match r with
  | ROk b => setWorks (data_works b ||? [])%js
  | RFailed => console_error "Error loading works:"
  end.

Definition toast_access_denied := mkToast "Доступ запрещен"
  (Some "Только администраторы могут публиковать работы") true.
Definition toast_published := mkToast "Работа опубликована!" None false.
Definition toast_publish_failed := mkToast "Ошибка" (Some "Не удалось опубликовать работу") true.

(** The body of [POST works] (lines 201-207). *)
Definition create_work_request (u : User) (f : WorkForm) : Request :=
  ReqWorksCreate (id u) (wf_title f) (wf_description f) (wf_image f)
    (if str_truthy (wf_price f) then json_number (parseFloat (wf_price f)) else JNull).

(** [handleCreateWork] up to its [await] (lines 190-208). *)
Definition handleCreateWork : act unit :=
  s ← js_get;
  match user s with
  | Some u =>
      if isAdminMode s then fetch (create_work_request u (workForm s)) KCreateWork
      else toast toast_access_denied
  | None => toast toast_access_denied
  end.

(** Its continuation (lines 209-219). *)
Definition handleCreateWork_resume (r : Reply) : act unit :=
  match r with
  | ROk b =>
      if data_success b then
        loadWorks;; setShowWorkDialog false;; setWorkForm emptyWorkForm;; toast toast_published
      else js_ret tt
  | RFailed => toast toast_publish_failed
  end.

#[export] Hint Unfold loadWorks loadWorks_resume handleCreateWork handleCreateWork_resume : js_defs.

(** ** Lemmas on [parseFloat] *)

Section rounding_lemmas.
Local Open Scope Z_scope.
Lemma round_half_even_1 n : round_half_even n 1 = n.
Proof. unfold round_half_even. rewrite Z.div_1_r, Z.mod_1_r. reflexivity. Qed.

Lemma strip_zeros_pow x n : strip_zeros n (x * 10 ^ Z.of_nat n) (- Z.of_nat n) = (x, 0).
Proof.
  revert x. induction n as [|n IH]; intros x; [by rewrite Z.mul_1_r|].
  cbn [strip_zeros]. rewrite Nat2Z.inj_succ, Z.pow_succ_r by lia.
  replace (x * (10 * 10 ^ Z.of_nat n)) with (x * 10 ^ Z.of_nat n * 10) by ring.
  rewrite Z.mod_mul, Z.div_mul by lia.
  replace (- Z.succ (Z.of_nat n) <? 0) with true by (symmetry; apply Z.ltb_lt; lia).
  replace (- Z.succ (Z.of_nat n) + 1) with (- Z.of_nat n) by lia. apply IH.
Qed.

Lemma decimal_pow x j : 0 <= j -> decimal (x * 10 ^ j) (- j) = Finite x 0.
Proof.
  intros Hj. unfold decimal. rewrite Z.opp_involutive.
  destruct (Z_of_nat_complete j Hj) as [n ->]. rewrite Nat2Z.id. by rewrite strip_zeros_pow.
Qed.

(** Integers up to [2^53] are doubles: rounding leaves them alone. *)
Lemma to_double_int neg p : 0 < p <= 2 ^ 53 -> to_double neg p 1 = Finite (if neg then - p else p) 0.
Proof.
  intros Hp. unfold to_double.
  rewrite (proj2 (Z.eqb_neq p 0)) by lia.
  assert (Hk : 0 <= Z.log2 p <= 53).
  { split; [apply Z.log2_nonneg|]. rewrite <- (Z.log2_pow2 53) by lia. apply Z.log2_le_mono; lia. }
  pose proof (Z.log2_spec p ltac:(lia)) as [Hlo _].
  change (Z.log2 1) with 0. rewrite Z.sub_0_r.
  unfold ge_pow2. rewrite (proj2 (Z.leb_le 0 (Z.log2 p))) by lia. rewrite Z.mul_1_l, (proj2 (Z.leb_le _ p) Hlo).
  assert (Hbig : 2 ^ 53 < 2 ^ 1024) by (apply Z.pow_lt_mono_r; lia).
  destruct (decide (Z.log2 p = 53)) as [H53|H53]; [|destruct (decide (Z.log2 p = 52)) as [H52|H52]].
  - assert (p = 2 ^ 53) as -> by (rewrite H53 in Hlo; lia). destruct neg; vm_compute; reflexivity.
  - replace (Z.max (Z.log2 p - 52) (-1074)) with 0 by lia.
    rewrite Z.leb_refl, Z.pow_0_r, Z.mul_1_l, round_half_even_1, Z.mul_1_r.
    rewrite (proj2 (Z.leb_gt (2 ^ 1024) p)) by lia. reflexivity.
  - replace (Z.max (Z.log2 p - 52) (-1074)) with (- (52 - Z.log2 p)) by lia.
    rewrite (proj2 (Z.leb_gt 0 _)) by lia. rewrite Z.opp_involutive, round_half_even_1.
    replace ((if neg then - (p * 2 ^ (52 - Z.log2 p) * 5 ^ (52 - Z.log2 p))
              else p * 2 ^ (52 - Z.log2 p) * 5 ^ (52 - Z.log2 p)))
      with ((if neg then - p else p) * 10 ^ (52 - Z.log2 p)).
    + apply decimal_pow. lia.
    + rewrite <- Z.mul_assoc, <- Z.pow_mul_l. change (2 * 5) with 10. destruct neg; ring.
Qed.
End rounding_lemmas.

Lemma span_digits_str_of_digits ds v l :
  Forall digit_range ds ->
  span_digits_from v l (str_of_digits ds) = (digits_value ds v, l + length ds, EmptyString)%nat.
Proof.
  revert v l. induction ds as [|d ds IH]; intros v l Hds; [by rewrite Nat.add_0_r|].
  apply Forall_cons in Hds as [Hd Hds]. simpl str_of_digits.
  rewrite span_digits_from_cons, digit_of_char by done. rewrite IH by done.
  simpl. by rewrite Nat.add_succ_r.
Qed.

Lemma prefix_Infinity_digits d ds :
  digit_range d -> String.prefix "Infinity" (str_of_digits (d :: ds)) = false.
Proof.
  intros Hd. cbn [str_of_digits].
  destruct (digit_cases d Hd) as [->|[->|[->|[->|[->|[->|[->|[->|[->| ->]]]]]]]]]; reflexivity.
Qed.

(** A non-empty digit string denoting at most [2^53] is read as that
    integer. *)
Lemma parse_unsigned_digits d ds neg :
  Forall digit_range (d :: ds) -> (0 <= digits_value (d :: ds) 0 <= 2 ^ 53)%Z ->
  parse_unsigned (str_of_digits (d :: ds)) neg =
    Finite (if neg then - digits_value (d :: ds) 0 else digits_value (d :: ds) 0)%Z 0.
Proof.
  intros Hds Hb. pose proof (Forall_inv Hds) as Hd.
  unfold parse_unsigned. rewrite prefix_Infinity_digits by done.
  unfold span_digits. rewrite span_digits_str_of_digits by done.
  cbn -[digits_value to_double Z.of_nat].
  set (v := digits_value (d :: ds) 0) in *. change (Z.of_nat 0) with 0%Z.
  rewrite Z.pow_0_r, Z.mul_1_r, Z.add_0_r, Z.sub_0_r, Z.pow_0_r, Z.mul_1_r.
  destruct (Z.eqb_spec v 0) as [->|Hv0]; [by destruct neg|].
  rewrite (proj2 (Z.leb_gt 310 0)), (proj2 (Z.ltb_ge _ (-400))), Z.leb_refl by lia.
  apply to_double_int. lia.
Qed.

Lemma parseFloat_digits d ds :
  digit_range d -> parseFloat (str_of_digits (d :: ds)) = parse_unsigned (str_of_digits (d :: ds)) false.
Proof.
  intros Hd. cbn [str_of_digits]. destruct (digit_cases d Hd) as [->|[->|[->|[->|[->|[->|[->|[->|[->| ->]]]]]]]]]; reflexivity.
Qed.

Lemma print_Z_digits z :
  exists d ds, Forall digit_range (d :: ds) /\ digits_value (d :: ds) 0 = Z.abs z /\
    print_Z z = if (z <? 0)%Z then String "-" (str_of_digits (d :: ds)) else str_of_digits (d :: ds).
Proof.
  unfold print_Z. destruct (Z.ltb_spec z 0).
  - destruct (digits_spec (- z)) as (Hr & Hv & d & ds & Hds & _); [lia|].
    exists d, ds. rewrite <- Hds, Hv. split_and!; [done | lia | done].
  - destruct (digits_spec z) as (Hr & Hv & d & ds & Hds & _); [lia|].
    exists d, ds. rewrite <- Hds, Hv. split_and!; [done | lia | done].
Qed.

(** [parseFloat] reads back the decimal text of every integer of
    magnitude at most [2^53], the integers a double holds exactly. *)
Lemma parseFloat_print_Z z : (Z.abs z <= 2 ^ 53)%Z -> parseFloat (print_Z z) = Finite z 0.
Proof.
  intros Hz. destruct (print_Z_digits z) as (d & ds & Hr & Hv & ->).
  destruct (Z.ltb_spec z 0).
  - unfold parseFloat. simpl trim_start. cbv iota.
    change (String (digit_char d) (str_of_digits ds)) with (str_of_digits (d :: ds)).
    rewrite parse_unsigned_digits by (done || lia). rewrite Hv. f_equal. lia.
  - rewrite parseFloat_digits by exact (Forall_inv Hr). rewrite parse_unsigned_digits by (done || lia).
    rewrite Hv. f_equal. lia.
Qed.

Lemma print_Z_truthy z : str_truthy (print_Z z) = true.
Proof. destruct (print_Z_digits z) as (d & ds & _ & _ & ->). by destruct (z <? 0)%Z. Qed.

(** ** Properties *)

(** C4: without a signed-in user, or with the admin gate off, submitting
    the publish form sends nothing and changes nothing but the
    access-denied toast. *)
Theorem handleCreateWork_denied a :
  user a = None \/ isAdminMode a = false ->
  exec handleCreateWork a = {| a with toasts := toasts a ++ [toast_access_denied] |}.
Proof.
  intros H. destruct a as [usr]; simpl in *. destruct H as [->| ->]; [reflexivity|]. destruct usr; reflexivity.
Qed.

Lemma handleCreateWork_denied_witness :
  let a := {| (initialApp (mkStorage ∅ 0)) with isAdminMode := true |} in
  inflight (exec handleCreateWork a) = ∅.
Proof. cbv zeta. rewrite handleCreateWork_denied by (left; reflexivity). reflexivity. Defined.

(** C23: a signed-in admin's submit sends exactly one [POST works]
    carrying the user's id and the form, and changes nothing else until
    the reply. *)
Theorem handleCreateWork_sends a u :
  user a = Some u -> isAdminMode a = true ->
  exec handleCreateWork a =
    {| a with inflight := <[next_req a := mkPending (create_work_request u (workForm a)) KCreateWork]> (inflight a);
              next_req := S (next_req a) |}.
Proof. intros Hu Ha. destruct a; simpl in *; subst. reflexivity. Qed.

Lemma handleCreateWork_sends_witness :
  let u := mkUser 1 "admin" "Admin" None true in
  let a := {| (initialApp (mkStorage ∅ 0)) with user := Some u; isAdminMode := true |} in
  next_req (exec handleCreateWork a) = 1%nat.
Proof. cbv zeta. erewrite handleCreateWork_sends by reflexivity. reflexivity. Defined.

(** C19: a price typed as the decimal text of an integer of magnitude at
    most [2^53] (where doubles are exact) is sent as that number, a
    negative one included: nothing checks the sign. *)
Theorem create_work_request_price u f z :
  wf_price f = print_Z z -> (Z.abs z <= 2 ^ 53)%Z ->
  create_work_request u f = ReqWorksCreate (id u) (wf_title f) (wf_description f) (wf_image f) (JNum (Finite z 0)).
Proof. intros Hp Hz. unfold create_work_request. by rewrite Hp, print_Z_truthy, parseFloat_print_Z. Qed.

Lemma create_work_request_price_witness :
  create_work_request (mkUser 1 "admin" "Admin" None true) (mkWorkForm "Sunset" "" "-5" "data:")
  = ReqWorksCreate 1 "Sunset" "" "data:" (JNum (Finite (-5) 0)).
Proof. apply create_work_request_price; [reflexivity | lia]. Defined.

(** C25: a publish reply with [success: false] is dropped silently: the
    dialog stays open with its form, and no toast is shown. *)
Theorem handleCreateWork_resume_rejected b a :
  data_success b = false -> exec (handleCreateWork_resume (ROk b)) a = a.
Proof. intros Hs. run_js. by rewrite Hs. Qed.

Lemma handleCreateWork_resume_rejected_witness :
  let a := {| (initialApp (mkStorage ∅ 0)) with showWorkDialog := true |} in
  exec (handleCreateWork_resume (ROk (mkBody false None None (Some "bad image") None None))) a = a.
Proof. cbv zeta. apply handleCreateWork_resume_rejected. reflexivity. Defined.
