(* ===== verification/Favorites.v ===== *)
(** * The Favorites Set Controller: [loadFavorites], [toggleFavorite]
    and the effect that reloads favorites when the user changes

    [loadFavorites] (lines 86-96) replaces both derived views, the list
    [favorites] and the id set [favoriteIds], from one reply.
    [toggleFavorite] (lines 133-161) reads membership in the id set of the
    render it was created in, awaits the DELETE or POST, then updates the
    set with a functional update and reloads. [useEffect(.., [user])]
    (lines 70-74) reloads whenever the user hook changes identity. *)

From S2P Require Import Prelude Model Storage Gateway App.

(** [loadFavorites] up to its [await] (lines 86-89); [u] is the [user]
    its closure captured. *)
Definition loadFavorites (u : option User) : act unit :=
  match u with
  | None => js_ret tt
  | Some u => fetch (ReqFavList (id u)) KLoadFavorites
  end.

(** Its continuation (lines 90-95). *)
Definition loadFavorites_resume (r : Reply) : act unit :=
  match r with
  | ROk b =>
      setFavorites (data_favorites b ||? [])%js;;
      setFavoriteIds (list_to_set (wid <$> (data_favorites b ||? [])%js))
  | RFailed => console_error "Error loading favorites:"
  end.

Definition toast_login_required := mkToast "Войдите в систему"
  (Some "Для добавления в избранное нужно войти") false.
Definition toast_fav_error := mkToast "Ошибка" (Some "Не удалось обновить избранное") true.

(** [toggleFavorite(workId)] up to its [await] (lines 133-154). *)
Definition toggleFavorite (workId : Z) : act unit :=
  s ← js_get;
  match user s with
  | None => toast toast_login_required
  | Some u =>
      let isFavorite := bool_decide (workId ∈ favoriteIds s) in
      if isFavorite then fetch (ReqFavDelete (id u) workId) (KToggle true u workId)
      else fetch (ReqFavAdd (id u) workId) (KToggle false u workId)
  end.

(** Its continuation (lines 144-160): the set update is functional
    ([prev => ..]) and so applies to the set current at resumption. *)
Definition toggleFavorite_resume (isFavorite : bool) (u : User) (workId : Z) (r : Reply) : act unit :=
  match r with
  | ROk _ =>
      (if isFavorite then updateFavoriteIds (fun prev => prev ∖ {[workId]})
       else updateFavoriteIds (fun prev => prev ∪ {[workId]}));;
      loadFavorites (Some u)
  | RFailed => toast toast_fav_error
  end.

(** [useEffect(() => { if (user) loadFavorites() }, [user])] (lines 70-74). *)
Definition user_effect : act unit := s ← js_get; loadFavorites (user s).

(** ** Properties *)

(** Both derived views describe the same set of works. *)
Definition fav_consistent (s : App) : Prop :=
  favoriteIds s = list_to_set (wid <$> favorites s).

#[export] Hint Unfold loadFavorites loadFavorites_resume toggleFavorite toggleFavorite_resume
  user_effect : js_defs.

(** ** Lemmas on the handlers *)

(** A signed-in toggle registers one request, chosen by membership in the
    id set it read, and changes nothing else. *)
Lemma toggleFavorite_signed_in a u w :
  user a = Some u ->
  exec (toggleFavorite w) a =
    let isFavorite := bool_decide (w ∈ favoriteIds a) in
    {| a with inflight := <[next_req a := mkPending
                (if isFavorite then ReqFavDelete (id u) w else ReqFavAdd (id u) w)
                (KToggle isFavorite u w)]> (inflight a);
              next_req := S (next_req a) |}.
Proof. intros Hu. destruct a; simpl in *; subst. run_js. by case_bool_decide. Qed.

(** An accepted toggle flips [w] in the id set current at resumption and
    asks for the list again. *)
Lemma toggleFavorite_resume_ok_exec isFavorite u w b a :
  exec (toggleFavorite_resume isFavorite u w (ROk b)) a =
    {| a with favoriteIds := if isFavorite then favoriteIds a ∖ {[w]} else favoriteIds a ∪ {[w]};
              inflight := <[next_req a := mkPending (ReqFavList (id u)) KLoadFavorites]> (inflight a);
              next_req := S (next_req a) |}.
Proof. by destruct isFavorite. Qed.

(** ** Properties *)

(** C12: a favourites reply replaces the list and rebuilds the id set
    from that same list, so the two views agree afterwards, whatever the
    state before and whoever is signed in now. *)
Theorem loadFavorites_resume_consistent b a :
  let a' := exec (loadFavorites_resume (ROk b)) a in
  favorites a' = (data_favorites b ||? [])%js /\ fav_consistent a' /\
  user a' = user a /\ inflight a' = inflight a.
Proof. repeat split. Qed.

(** C13: the toggle is not optimistic: when the heart is clicked the id
    set is left as it is, and exactly one request goes out, a DELETE when
    the work is in the set the click read and a POST otherwise. *)
Theorem toggleFavorite_not_optimistic a u w :
  user a = Some u ->
  let a' := exec (toggleFavorite w) a in
  favoriteIds a' = favoriteIds a /\ next_req a' = S (next_req a) /\
  inflight a' !! next_req a =
    Some (mkPending (if bool_decide (w ∈ favoriteIds a) then ReqFavDelete (id u) w else ReqFavAdd (id u) w)
                    (KToggle (bool_decide (w ∈ favoriteIds a)) u w)).
Proof. intros Hu. cbv zeta. rewrite (toggleFavorite_signed_in a u w Hu). simpl. by rewrite lookup_insert_eq. Qed.

Lemma toggleFavorite_not_optimistic_witness :
  let u := mkUser 3 "vera" "Vera" None false in
  let a := {| (initialApp (mkStorage ∅ 0)) with user := Some u; favoriteIds := {[5%Z]} |} in
  let a' := exec (toggleFavorite 5) a in
  favoriteIds a' = favoriteIds a /\ next_req a' = S (next_req a) /\
  inflight a' !! next_req a =
    Some (mkPending (if bool_decide (5%Z ∈ favoriteIds a) then ReqFavDelete (id u) 5 else ReqFavAdd (id u) 5)
                    (KToggle (bool_decide (5%Z ∈ favoriteIds a)) u 5)).
Proof. intros u a. apply (toggleFavorite_not_optimistic a u 5). reflexivity. Defined.

(** C14: an accepted toggle flips exactly [w] in the id set current when
    the reply arrives (removes it if the click saw it, adds it
    otherwise), leaves every other id as it is, and reloads the list. *)
Theorem toggleFavorite_resume_ok isFavorite u w b a :
  let a' := exec (toggleFavorite_resume isFavorite u w (ROk b)) a in
  (w ∈ favoriteIds a' <-> isFavorite = false) /\
  (forall x, x <> w -> x ∈ favoriteIds a' <-> x ∈ favoriteIds a) /\
  inflight a' !! next_req a = Some (mkPending (ReqFavList (id u)) KLoadFavorites).
Proof.
  cbv zeta. rewrite toggleFavorite_resume_ok_exec. simpl. rewrite lookup_insert_eq.
  destruct isFavorite; split_and!; try done; intros; set_solver.
Qed.

(** C15: a toggle whose request fails leaves the id set alone and shows
    the error toast (the spec asks for no notification). *)
Theorem toggleFavorite_resume_failed isFavorite u w a :
  exec (toggleFavorite_resume isFavorite u w RFailed) a =
    {| a with toasts := toasts a ++ [toast_fav_error] |}.
Proof. reflexivity. Qed.

(** C27: a signed-out click on a heart sends nothing and only asks to log
    in. *)
Theorem toggleFavorite_signed_out a w :
  user a = None -> exec (toggleFavorite w) a = {| a with toasts := toasts a ++ [toast_login_required] |}.
Proof. intros Hu. destruct a; simpl in *; subst. reflexivity. Qed.

Lemma toggleFavorite_signed_out_witness :
  inflight (exec (toggleFavorite 5) (initialApp (mkStorage ∅ 0))) = ∅.
Proof. rewrite toggleFavorite_signed_out by reflexivity. reflexivity. Defined.
