(* ===== verification/Session.v ===== *)
(** * The Session Controller: mount, [handleAuth], [handleLogout],
    [handleUpdateProfile]

    The mount effect (lines 59-68) restores the user from [localStorage]
    when both entries are truthy, then loads the gallery. [handleAuth]
    (lines 98-122) posts the credentials and, on success, adopts and
    persists the user and token. [handleLogout] (lines 124-131) is purely
    local. [handleUpdateProfile] (lines 222-248) sends only the fields the
    form filled in. The [JSON.stringify]/[JSON.parse] of the stored user is
    the [JsonCodec] interface, a parameter of this section. *)

From S2P Require Import Prelude Model Storage Gateway App Gallery Favorites.

Definition toast_welcome := mkToast "Добро пожаловать!" None false.
Definition toast_registered := mkToast "Регистрация успешна!" None false.
Definition toast_auth_error (e : option string) := mkToast "Ошибка" e true.
Definition toast_request_failed := mkToast "Ошибка" (Some "Не удалось выполнить запрос") true.
Definition toast_logged_out := mkToast "Вы вышли из системы" None false.
Definition toast_profile_updated := mkToast "Профиль обновлен!" None false.
Definition toast_profile_failed := mkToast "Ошибка" (Some "Не удалось обновить профиль") true.

(** The truthiness of a [getItem] result: [null] and [""] are falsy. *)
Definition truthy_item (o : option string) : bool :=
  match o with Some v => str_truthy v | None => false end.

(** The updates object of [handleUpdateProfile] (lines 227-230), in the
    order its keys are assigned. *)
Definition profile_updates (u : User) (f : ProfileForm) : list (string * JVal) :=
  [("user_id", JNum (Finite (id u) 0))] ++
  (if str_truthy (pf_nickname f) then [("nickname", JStr (pf_nickname f))] else []) ++
  (if str_truthy (pf_password f) then [("password", JStr (pf_password f))] else []) ++
  (if str_truthy (pf_avatar f) then [("avatar_url", JStr (pf_avatar f))] else []).

Section session.
Context `{JC : JsonCodec User}.

(** The mount effect (lines 59-68). A [JSON.parse] that throws aborts
    it before [setUser] and [loadWorks]. *)
Definition mount_effect : act unit :=
  savedUser ← ls_getItem KEY_USER;
  savedToken ← ls_getItem KEY_TOKEN;
  if truthy_item savedUser && truthy_item savedToken then
    u ← json_parse (default "" savedUser);
    setUser u;;
    loadWorks
  else loadWorks.

(** [handleAuth] up to its [await] (lines 98-105): the closure holds
    [authMode] and [authForm]. *)
Definition handleAuth : act unit :=
  s ← js_get;
  fetch (ReqAuth (authMode s) (af_username (authForm s)) (af_password (authForm s)))
        (KAuth (authMode s)).

(** Its continuation (lines 106-121). *)
Definition handleAuth_resume (mode : AuthMode) (r : Reply) : act unit :=
  match r with
  | ROk b =>
      js_try
        (if data_success b then
           setUser (data_user b);;
           ls_setItem KEY_USER (stringify_opt (data_user b));;
           ls_setItem KEY_TOKEN (string_of_opt (data_token b));;
           setShowAuthDialog false;;
           setAuthForm emptyAuthForm;;
           loadWorks;;
           toast (match mode with Login => toast_welcome | Register => toast_registered end)
         else toast (toast_auth_error (data_error b)))
        (fun _ => toast toast_request_failed)
  | RFailed => toast toast_request_failed
  end.

(** [handleLogout] (lines 124-131). *)
Definition handleLogout : act unit :=
  setUser None;;
  setIsAdminMode false;;
  ls_removeItem KEY_USER;;
  ls_removeItem KEY_TOKEN;;
  setCurrentView VGallery;;
  toast toast_logged_out.

(** [handleUpdateProfile] up to its [await] (lines 222-236). *)
Definition handleUpdateProfile : act unit :=
  s ← js_get;
  match user s with
  | None => js_ret tt
  | Some u => fetch (ReqProfile (profile_updates u (profileForm s))) KUpdateProfile
  end.

(** Its continuation (lines 237-247). *)
Definition handleUpdateProfile_resume (r : Reply) : act unit :=
  match r with
  | ROk b =>
      js_try
        (if data_success b then
           setUser (data_user b);;
           ls_setItem KEY_USER (stringify_opt (data_user b));;
           setProfileForm emptyProfileForm;;
           toast toast_profile_updated
         else js_ret tt)
        (fun _ => toast toast_profile_failed)
  | RFailed => toast toast_profile_failed
  end.

(** ** Properties *)

(** C6: a successful auth reply whose two [localStorage] writes fit the
    quota adopts the user, persists user and token, closes and clears the
    auth form, reloads the gallery and greets according to the mode; no
    other state changes. *)
Theorem handleAuth_resume_ok m b u t a st1 st2 :
  data_success b = true -> data_user b = Some u -> data_token b = Some t ->
  setItem KEY_USER (stringify u) (storage a) = Some st1 ->
  setItem KEY_TOKEN t st1 = Some st2 ->
  exec (handleAuth_resume m (ROk b)) a =
    {| a with user := Some u; user_rev := S (user_rev a); storage := st2;
              showAuthDialog := false; authForm := emptyAuthForm;
              inflight := <[next_req a := mkPending ReqWorksList KLoadWorks]> (inflight a);
              next_req := S (next_req a);
              toasts := toasts a ++ [match m with Login => toast_welcome | Register => toast_registered end] |}.
Proof.
  intros Hs Hu Ht H1 H2. run_js. rewrite Hs, Hu, Ht. simpl. rewrite H1. simpl. rewrite H2. simpl.
  by destruct (user a).
Qed.

(** C8: when persisting the user exceeds the storage quota, the user is
    already adopted in memory but is not persisted, the auth dialog stays
    open, no gallery reload is sent, and the generic failure toast is
    shown: the UI reports a failed login for a session that is live. *)
Theorem handleAuth_resume_quota m b u a :
  data_success b = true -> data_user b = Some u ->
  setItem KEY_USER (stringify u) (storage a) = None ->
  exec (handleAuth_resume m (ROk b)) a =
    {| a with user := Some u; user_rev := S (user_rev a);
              toasts := toasts a ++ [toast_request_failed] |}.
Proof.
  intros Hs Hu H1. run_js. rewrite Hs, Hu. simpl. rewrite H1. simpl. by destruct (user a).
Qed.

(** C5: logging out is purely local and ends the session: the user
    hook becomes [null], admin mode is off, both storage entries are
    removed, the gallery is shown and the logout toast appears; no
    request is sent and nothing else changes. *)
Theorem handleLogout_clears a :
  exec handleLogout a =
    {| a with user := None;
              user_rev := match user a with None => user_rev a | Some _ => S (user_rev a) end;
              isAdminMode := false;
              storage := removeItem KEY_TOKEN (removeItem KEY_USER (storage a));
              currentView := VGallery;
              toasts := toasts a ++ [toast_logged_out] |}.
Proof. unfold exec, handleLogout. run_js. by destruct (user a). Qed.

(** C20: a rejected login or registration changes nothing but shows the
    server's error; a transport failure shows the generic error. *)
Theorem handleAuth_resume_rejected m b a :
  exec (handleAuth_resume m RFailed) a = {| a with toasts := toasts a ++ [toast_request_failed] |} /\
  (data_success b = false ->
   exec (handleAuth_resume m (ROk b)) a = {| a with toasts := toasts a ++ [toast_auth_error (data_error b)] |}).
Proof. split; [reflexivity|]. intros Hs. run_js. by rewrite Hs. Qed.

(** C9: the profile update sends the user id and exactly the form
    fields that are non-empty, in the order nickname, password, avatar:
    an omitted field is never sent as an empty value. *)
Theorem profile_updates_only_filled u f :
  profile_updates u f =
    ("user_id", JNum (Finite (id u) 0)) ::
    ((fun kv => (kv.1, JStr kv.2)) <$>
       filter (fun kv => kv.2 <> "")
         [("nickname", pf_nickname f); ("password", pf_password f); ("avatar_url", pf_avatar f)]).
Proof.
  unfold profile_updates. simpl.
  destruct (str_truthy (pf_nickname f)) eqn:E1, (str_truthy (pf_password f)) eqn:E2,
           (str_truthy (pf_avatar f)) eqn:E3;
  str_truthy_hyps; rewrite !filter_cons, filter_nil; repeat case_decide; simpl in *;
  first [reflexivity | tauto | congruence].
Qed.

(** C21: a profile update the server rejects ([success: false]) is
    silently dropped: the state is unchanged and nothing is shown. *)
Theorem handleUpdateProfile_resume_rejected b a :
  data_success b = false -> exec (handleUpdateProfile_resume (ROk b)) a = a.
Proof. intros Hs. run_js. rewrite Hs. by destruct a. Qed.

(** C24: when persisting the updated user exceeds the quota, the new
    user is adopted in memory, the form is kept, and the failure toast is
    shown although the server applied the update. *)
Theorem handleUpdateProfile_resume_quota b u a :
  data_success b = true -> data_user b = Some u ->
  setItem KEY_USER (stringify u) (storage a) = None ->
  exec (handleUpdateProfile_resume (ROk b)) a =
    {| a with user := Some u; user_rev := S (user_rev a);
              toasts := toasts a ++ [toast_profile_failed] |}.
Proof. intros Hs Hu H1. run_js. rewrite Hs, Hu. simpl. rewrite H1. simpl. by destruct (user a). Qed.

(** The mount effect on a storage holding a serialised user and a
    non-empty token: the user is restored and the gallery requested. *)
Lemma mount_effect_restores st u t :
  getItem KEY_USER st = Some (stringify u) -> getItem KEY_TOKEN st = Some t -> t <> "" ->
  mount_effect (initialApp st) =
    Normal tt {| (initialApp st) with user := Some u; user_rev := 1;
       inflight := {[0 := mkPending ReqWorksList KLoadWorks]}; next_req := 1 |}.
Proof.
  intros Hu Ht Hne. unfold mount_effect. run_js. rewrite Hu, Ht. simpl.
  assert (str_truthy (stringify u) = true) as -> by (apply str_truthy_true, stringify_nonempty).
  assert (str_truthy t = true) as -> by (by apply str_truthy_true).
  simpl. rewrite parse_stringify. reflexivity.
Qed.

(** When both entries are truthy but the stored user does not parse,
    [JSON.parse] throws before anything is changed. *)
Lemma mount_effect_corrupt st v t :
  getItem KEY_USER st = Some v -> str_truthy v = true ->
  getItem KEY_TOKEN st = Some t -> str_truthy t = true -> parse v = None ->
  mount_effect (initialApp st) = Thrown SyntaxError (initialApp st).
Proof. intros Hu Hv Ht Htt Hp. unfold mount_effect. run_js. rewrite Hu, Ht. simpl. rewrite Hv, Htt. simpl. by rewrite Hp. Qed.
End session.

#[export] Hint Unfold mount_effect handleAuth handleAuth_resume handleLogout
  handleUpdateProfile handleUpdateProfile_resume : js_defs.
