(* ===== verification/Admin.v ===== *)
(** * The Admin Gate: [handleAdminAccess] and leaving admin mode

    [handleAdminAccess] (lines 163-172) compares the typed password with
    the constant [ADMIN_PASSWORD] embedded in the client; the settings
    card's button (lines 459-462) turns the gate off. Logging out also
    clears it ([handleLogout], Session.v). *)

From S2P Require Import Prelude Model Storage Gateway App.

Definition toast_admin_on := mkToast "Режим администратора активирован"
  (Some "Теперь вы можете публиковать работы") false.
Definition toast_wrong_password := mkToast "Неверный пароль" None true.
Definition toast_admin_off := mkToast "Вы вышли из режима администратора" None false.

(** [handleAdminAccess] (lines 163-172). *)
Definition handleAdminAccess : act unit :=
  s ← js_get;
  if String.eqb (adminPassword s) ADMIN_PASSWORD then
    setIsAdminMode true;;
    setShowAdminDialog false;;
    setAdminPassword "";;
    toast toast_admin_on
  else toast toast_wrong_password.

(** The "leave admin panel" button's handler (lines 459-462). *)
Definition exitAdminMode : act unit :=
  setIsAdminMode false;;
  toast toast_admin_off.

#[export] Hint Unfold handleAdminAccess exitAdminMode : js_defs.

(** ** Properties *)

(** C10: the right password turns the admin gate on, closes and clears
    the dialog and confirms; the handler reads nothing but the typed
    password, so it does so whether or not a user is signed in (the
    spec's first condition is not checked here). *)
Theorem handleAdminAccess_correct a :
  adminPassword a = ADMIN_PASSWORD ->
  exec handleAdminAccess a =
    {| a with isAdminMode := true; showAdminDialog := false; adminPassword := "";
              toasts := toasts a ++ [toast_admin_on] |}.
Proof. intros Hp. run_js. rewrite Hp, String.eqb_refl. reflexivity. Qed.

Lemma handleAdminAccess_correct_witness :
  let a := {| (initialApp (mkStorage ∅ 0)) with adminPassword := ADMIN_PASSWORD |} in
  user a = None /\ isAdminMode (exec handleAdminAccess a) = true.
Proof.
  cbv zeta. split; [reflexivity|]. rewrite handleAdminAccess_correct by reflexivity. reflexivity.
Defined.

(** C11: any other password leaves the gate, the dialog and the typed
    password as they are and only shows the error toast. *)
Theorem handleAdminAccess_wrong a :
  adminPassword a <> ADMIN_PASSWORD ->
  exec handleAdminAccess a = {| a with toasts := toasts a ++ [toast_wrong_password] |}.
Proof. intros Hp. run_js. apply String.eqb_neq in Hp. by rewrite Hp. Qed.

Lemma handleAdminAccess_wrong_witness :
  let a := {| (initialApp (mkStorage ∅ 0)) with adminPassword := "admin" |} in
  isAdminMode (exec handleAdminAccess a) = false.
Proof. cbv zeta. rewrite handleAdminAccess_wrong by (vm_compute; discriminate). reflexivity. Defined.
