(* ===== verification/Machine.v ===== *)
(** * The component as a state machine

    The events are the controls the JSX renders (lines 293-683), the
    arrival of a reply to a request in flight, and a page reload. A
    control fires only while it is rendered: header and page controls
    while no dialog is open (the dialogs are modal), dialog controls while
    their dialog is open; a form's submit additionally needs its [required]
    fields filled and its button enabled. Each handler or continuation
    runs as one segment; afterwards React re-renders and, if the [user]
    hook changed identity, runs [useEffect(.., [user])]. A mount effect
    that throws unmounts the tree ([Crashed]); a reload mounts again from
    the persisted storage. *)

From S2P Require Import Prelude Model Storage Gateway App Gallery Favorites Session Admin.

Inductive Event :=
| ENavigate (v : View)                (* header buttons, lines 305-317 *)
| EOpenAuth                           (* header login button, line 323 *)
| EOpenWorkDialog                     (* add-work button, line 341 *)
| ESelectWork (w : Work)              (* card click, line 254 *)
| EToggleFavorite (w : Work)          (* heart button, lines 268-271 *)
| EProfileNickname (v : string)       (* line 420 *)
| EProfilePassword (v : string)       (* line 431 *)
| EUploadImage (t : UploadTarget) (dataUrl : string)  (* lines 174-188 *)
| ESubmitProfile                      (* line 391 *)
| EExitAdmin                          (* lines 459-462 *)
| EOpenAdminDialog                    (* line 470 *)
| ELogout                             (* line 478 *)
| ESetAuthMode (m : AuthMode)         (* lines 500, 508 *)
| EAuthUsername (v : string)          (* line 522 *)
| EAuthPassword (v : string)          (* line 533 *)
| ESubmitAuth                         (* line 515 *)
| ECloseAuth                          (* line 486 *)
| EAdminPassword (v : string)         (* line 559 *)
| ESubmitAdmin                        (* lines 560, 564 *)
| ECloseAdmin                         (* line 545 *)
| ERemoveImage                        (* line 591 *)
| EWorkTitle (v : string)             (* line 620 *)
| EWorkDescription (v : string)       (* line 630 *)
| EWorkPrice (v : string)             (* line 642 *)
| ESubmitWork                         (* line 579 *)
| ECloseWorkDialog                    (* line 572 *)
| ECloseDetail                        (* line 655 *)
| EDeliver (n : nat) (r : Reply)      (* the reply to request n arrives *)
| EReload.                            (* the page is reloaded *)

(** [handleImageUpload(e, target)] once the [FileReader] has produced the
    data URL of the chosen file (lines 174-188). *)
Definition handleImageUpload (t : UploadTarget) (result : string) : act unit :=
  s ← js_get;
  match t with
  | TWork => setWorkForm {| wf_title := wf_title (workForm s); wf_description := wf_description (workForm s);
                            wf_price := wf_price (workForm s); wf_image := result |}
  | TAvatar => setProfileForm {| pf_nickname := pf_nickname (profileForm s);
                                 pf_password := pf_password (profileForm s); pf_avatar := result |}
  end.

(** No dialog is open, so the page behind is interactive. *)
Definition page_interactive (s : App) : bool :=
  negb (showAuthDialog s || showAdminDialog s || showWorkDialog s || bool_decide (is_Some (selectedWork s))).

(** The cards on screen (lines 358, 375). *)
Definition cards_shown (s : App) : list Work :=
  match currentView s, user s with
  | VGallery, _ => works s
  | VFavorites, Some _ => favorites s
  | _, _ => []
  end.

Definition in_settings (s : App) : bool :=
  bool_decide (currentView s = VSettings) && bool_decide (is_Some (user s)).

(** Whether the control behind a UI event is rendered and enabled. *)
Definition enabled (s : App) (e : Event) : bool :=
  let signed_in := bool_decide (is_Some (user s)) in
  match e with
  | ENavigate _ => page_interactive s && signed_in
  | EOpenAuth => page_interactive s && negb signed_in
  | EOpenWorkDialog => page_interactive s && bool_decide (currentView s = VGallery) && signed_in && isAdminMode s
  | ESelectWork w => page_interactive s && bool_decide (w ∈ cards_shown s)
  | EToggleFavorite w => page_interactive s && signed_in && bool_decide (w ∈ cards_shown s)
  | EProfileNickname _ | EProfilePassword _ | ESubmitProfile | ELogout
  | EUploadImage TAvatar _ => page_interactive s && in_settings s
  | EExitAdmin => page_interactive s && in_settings s && isAdminMode s
  | EOpenAdminDialog => page_interactive s && in_settings s && negb (isAdminMode s)
  | ESetAuthMode _ | EAuthUsername _ | EAuthPassword _ | ECloseAuth => showAuthDialog s
  | ESubmitAuth => showAuthDialog s && str_truthy (af_username (authForm s)) && str_truthy (af_password (authForm s))
  | EAdminPassword _ | ESubmitAdmin | ECloseAdmin => showAdminDialog s
  | EUploadImage TWork _ => showWorkDialog s && negb (str_truthy (wf_image (workForm s)))
  | ERemoveImage => showWorkDialog s && str_truthy (wf_image (workForm s))
  | EWorkTitle _ | EWorkDescription _ | EWorkPrice _ | ECloseWorkDialog => showWorkDialog s
  | ESubmitWork => showWorkDialog s && str_truthy (wf_image (workForm s)) && str_truthy (wf_title (workForm s))
  | ECloseDetail => bool_decide (is_Some (selectedWork s))
  | EDeliver _ _ | EReload => true
  end.

Section machine.
Context `{JC : JsonCodec User}.

(** The handler a UI event runs (the inline arrow functions of the JSX
    are written out). *)
Definition handler (e : Event) : act unit :=
  match e with
  | ENavigate v => setCurrentView v
  | EOpenAuth => setShowAuthDialog true
  | EOpenWorkDialog => setShowWorkDialog true
  | ESelectWork w => setSelectedWork (Some w)
  | EToggleFavorite w => toggleFavorite (wid w)
  | EProfileNickname v => s ← js_get; setProfileForm {| pf_nickname := v;
      pf_password := pf_password (profileForm s); pf_avatar := pf_avatar (profileForm s) |}
  | EProfilePassword v => s ← js_get; setProfileForm {| pf_nickname := pf_nickname (profileForm s);
      pf_password := v; pf_avatar := pf_avatar (profileForm s) |}
  | EUploadImage t d => handleImageUpload t d
  | ESubmitProfile => handleUpdateProfile
  | EExitAdmin => exitAdminMode
  | EOpenAdminDialog => setShowAdminDialog true
  | ELogout => handleLogout
  | ESetAuthMode m => setAuthMode m
  | EAuthUsername v => s ← js_get; setAuthForm {| af_username := v; af_password := af_password (authForm s) |}
  | EAuthPassword v => s ← js_get; setAuthForm {| af_username := af_username (authForm s); af_password := v |}
  | ESubmitAuth => handleAuth
  | ECloseAuth => setShowAuthDialog false
  | EAdminPassword v => setAdminPassword v
  | ESubmitAdmin => handleAdminAccess
  | ECloseAdmin => setShowAdminDialog false
  | ERemoveImage => s ← js_get; setWorkForm {| wf_title := wf_title (workForm s);
      wf_description := wf_description (workForm s); wf_price := wf_price (workForm s); wf_image := "" |}
  | EWorkTitle v => s ← js_get; setWorkForm {| wf_title := v;
      wf_description := wf_description (workForm s); wf_price := wf_price (workForm s); wf_image := wf_image (workForm s) |}
  | EWorkDescription v => s ← js_get; setWorkForm {| wf_title := wf_title (workForm s);
      wf_description := v; wf_price := wf_price (workForm s); wf_image := wf_image (workForm s) |}
  | EWorkPrice v => s ← js_get; setWorkForm {| wf_title := wf_title (workForm s);
      wf_description := wf_description (workForm s); wf_price := v; wf_image := wf_image (workForm s) |}
  | ESubmitWork => handleCreateWork
  | ECloseWorkDialog => setShowWorkDialog false
  | ECloseDetail => setSelectedWork None
  | EDeliver _ _ | EReload => js_ret tt
  end.

(** The continuation registered at an await point. *)
Definition resume (k : Cont) (r : Reply) : act unit :=
  match k with
  | KLoadWorks => loadWorks_resume r
  | KLoadFavorites => loadFavorites_resume r
  | KAuth m => handleAuth_resume m r
  | KToggle b u w => toggleFavorite_resume b u w r
  | KCreateWork => handleCreateWork_resume r
  | KUpdateProfile => handleUpdateProfile_resume r
  end.

(** One segment of JavaScript followed by React's re-render: an
    exception escaping an event handler or an async continuation
    leaves the updates made before it, and the [user] effect runs if
    the hook changed identity. *)
Definition segment (c : act unit) : act unit :=
  s0 ← js_get;
  js_try c (fun _ => js_ret tt);;
  s1 ← js_get;
  if bool_decide (user_rev s1 = user_rev s0) then js_ret tt else user_effect.

Inductive Sys := Running (a : App) | Crashed (st : Storage).

(** Mounting [Index] on a storage: the initial render, then the mount
    effect; if it throws, React unmounts the tree. *)
Definition mount (st : Storage) : Sys :=
  let a0 := initialApp st in
  match mount_effect a0 with
  | Normal _ a => Running (exec (s ← js_get;
                                 if bool_decide (user_rev s = 0) then js_ret tt else user_effect) a)
  | Thrown _ a => Crashed (storage a)
  end.

Definition drop_request (n : nat) (a : App) : App := {| a with inflight := delete n (inflight a) |}.

(** The three kinds of events: a reload, a reply, a UI event. *)
Inductive EventKind := KReload | KDeliver (n : nat) (r : Reply) | KUi.

Definition classify (e : Event) : EventKind :=
  match e with
  | EReload => KReload
  | EDeliver n r => KDeliver n r
  | _ => KUi
  end.

(** One step of the whole page. *)
Definition step (x : Sys) (e : Event) : option Sys :=
  match x, classify e with
  | Running a, KReload => Some (mount (storage a))
  | Crashed st, KReload => Some (mount st)
  | Crashed _, _ => None
  | Running a, KDeliver n r =>
      match inflight a !! n with
      | Some p =>
          if reply_contract (p_req p) r
          then Some (Running (exec (segment (resume (p_cont p) r)) (drop_request n a)))
          else None
      | None => None
      end
  | Running a, KUi =>
      if enabled a e then Some (Running (exec (segment (handler e)) a)) else None
  end.

Fixpoint run (x : Sys) (es : list Event) : option Sys :=
  match es with
  | [] => Some x
  | e :: es' => match step x e with Some y => run y es' | None => None end
  end.

Definition sys_step (x y : Sys) : Prop := exists e, step x e = Some y.

(** The states a first visit (empty storage, any quota) can reach. *)
Definition reachable (x : Sys) : Prop :=
  exists q, rtc sys_step (mount (mkStorage ∅ q)) x.
Lemma classify_reload e : classify e = KReload -> e = EReload.
Proof. by destruct e. Qed.

Lemma classify_deliver e n r : classify e = KDeliver n r -> e = EDeliver n r.
Proof. destruct e; by intros [= -> ->]. Qed.

(** Inversion of a step of a running page. *)
Lemma step_running_inv a e y :
  step (Running a) e = Some y ->
  (e = EReload /\ y = mount (storage a)) \/
  (exists n r p, e = EDeliver n r /\ inflight a !! n = Some p /\
     reply_contract (p_req p) r = true /\
     y = Running (exec (segment (resume (p_cont p) r)) (drop_request n a))) \/
  (enabled a e = true /\ y = Running (exec (segment (handler e)) a)).
Proof.
  unfold step. destruct (classify e) as [|n r|] eqn:Hk; intros Hs.
  - left. split; [by apply classify_reload | congruence].
  - right; left. apply classify_deliver in Hk as ->.
    destruct (inflight a !! n) as [p|] eqn:Hp; [|discriminate].
    destruct (reply_contract _ _) eqn:Hc; [|discriminate].
    exists n, r, p. repeat split; congruence.
  - right; right. destruct (enabled a e); [split; congruence | discriminate].
Qed.

Lemma step_crashed_inv st e y :
  step (Crashed st) e = Some y -> e = EReload /\ y = mount st.
Proof.
  unfold step. destruct (classify e) eqn:Hk; intros Hs; try discriminate.
  split; [by apply classify_reload | congruence].
Qed.

(** A run of events is a path of the step relation. *)
Lemma run_rtc x es y : run x es = Some y -> rtc sys_step x y.
Proof.
  revert x. induction es as [|e es IH]; intros x; simpl; [by intros [= ->]|].
  destruct (step x e) as [z|] eqn:Hs; [|discriminate].
  intros Hr. eapply rtc_l; [by exists e | by apply IH].
Qed.

Lemma run_app x es1 es2 :
  run x (es1 ++ es2) = match run x es1 with Some y => run y es2 | None => None end.
Proof.
  revert x. induction es1 as [|e es IH]; intros x; simpl; [done|].
  destruct (step x e); [apply IH | done].
Qed.

Lemma run_cons x e y es : step x e = Some y -> run x (e :: es) = run y es.
Proof. simpl. by intros ->. Qed.

Lemma step_ui a e :
  classify e = KUi -> enabled a e = true -> step (Running a) e = Some (Running (exec (segment (handler e)) a)).
Proof. intros Hk He. unfold step. by rewrite Hk, He. Qed.

Lemma step_deliver a n r p :
  inflight a !! n = Some p -> reply_contract (p_req p) r = true ->
  step (Running a) (EDeliver n r) = Some (Running (exec (segment (resume (p_cont p) r)) (drop_request n a))).
Proof. intros Hp Hc. unfold step; simpl. by rewrite Hp, Hc. Qed.

Lemma exec_segment c a :
  exec (segment c) a =
    let a1 := final_state (c a) in
    if bool_decide (user_rev a1 = user_rev a) then a1 else exec user_effect a1.
Proof. unfold exec, segment; simpl. destruct (c a); simpl; by case_bool_decide. Qed.

(** A segment that leaves the [user] hook alone runs no effect. *)
Lemma exec_segment_same c a : user_rev (exec c a) = user_rev a -> exec (segment c) a = exec c a.
Proof. intros H. rewrite exec_segment. simpl. by rewrite bool_decide_true. Qed.

(** A crashed page only reloads, and reloads to the same crash while
    the storage is unchanged. *)
Lemma run_crashed st es y : mount st = Crashed st -> run (Crashed st) es = Some y -> y = Crashed st.
Proof.
  intros Hm. induction es as [|e es IH]; cbn [run]; [by intros [= <-]|].
  destruct (step (Crashed st) e) eqn:Hs; [|discriminate].
  apply step_crashed_inv in Hs as [_ ->]. rewrite Hm. exact IH.
Qed.

Lemma enabled_toggle a w :
  page_interactive a = true -> is_Some (user a) -> w ∈ cards_shown a -> enabled a (EToggleFavorite w) = true.
Proof. intros Hp Hu Hw. simpl. rewrite Hp. by rewrite !bool_decide_true. Qed.

Lemma step_toggle a u w :
  user a = Some u -> page_interactive a = true -> w ∈ cards_shown a ->
  step (Running a) (EToggleFavorite w) = Some (Running (exec (toggleFavorite (wid w)) a)).
Proof.
  intros Hu Hp Hw. rewrite step_ui; [|done|apply enabled_toggle; rewrite ?Hu; eauto].
  change (handler (EToggleFavorite w)) with (toggleFavorite (wid w)).
  rewrite exec_segment_same; [done|]. by rewrite (toggleFavorite_signed_in a u (wid w) Hu).
Qed.

Lemma step_toggle_resume_ok a n (isFav : bool) (u : User) (x : Z) (b : Body) :
  inflight a !! n = Some (mkPending (if isFav then ReqFavDelete (id u) x else ReqFavAdd (id u) x) (KToggle isFav u x)) ->
  step (Running a) (EDeliver n (ROk b)) =
    Some (Running {| a with favoriteIds := if isFav then favoriteIds a ∖ {[x]} else favoriteIds a ∪ {[x]};
                            inflight := <[next_req a := mkPending (ReqFavList (id u)) KLoadFavorites]>
                                          (delete n (inflight a));
                            next_req := S (next_req a) |}).
Proof.
  intros Hp. rewrite (step_deliver _ _ _ _ Hp) by (by destruct isFav). cbn [p_cont resume].
  rewrite exec_segment_same; rewrite toggleFavorite_resume_ok_exec; reflexivity.
Qed.

Lemma step_toggle_state a u w :
  user a = Some u -> page_interactive a = true -> w ∈ cards_shown a ->
  step (Running a) (EToggleFavorite w) =
    let m := bool_decide (wid w ∈ favoriteIds a) in
    Some (Running {| a with inflight := <[next_req a := mkPending
                              (if m then ReqFavDelete (id u) (wid w) else ReqFavAdd (id u) (wid w))
                              (KToggle m u (wid w))]> (inflight a);
                            next_req := S (next_req a) |}).
Proof. intros Hu Hp Hw. rewrite (step_toggle a u w Hu Hp Hw). by rewrite (toggleFavorite_signed_in a u _ Hu). Qed.

Lemma step_toggle_add a u w :
  user a = Some u -> page_interactive a = true -> w ∈ cards_shown a -> wid w ∉ favoriteIds a ->
  step (Running a) (EToggleFavorite w) =
    Some (Running {| a with inflight := <[next_req a := mkPending (ReqFavAdd (id u) (wid w)) (KToggle false u (wid w))]> (inflight a);
                            next_req := S (next_req a) |}).
Proof. intros Hu Hp Hw Hf. rewrite (step_toggle_state a u w Hu Hp Hw). cbv zeta. by rewrite bool_decide_false. Qed.


(** C7: reloading a page whose storage holds a serialised user and a
    non-empty token signs that user in again without asking the server:
    the gallery and that user's favourites are requested, nothing else
    changes in the first state. *)
Theorem reload_restores_session st u t :
  getItem KEY_USER st = Some (stringify u) -> getItem KEY_TOKEN st = Some t -> t <> "" ->
  mount st = Running {| (initialApp st) with user := Some u; user_rev := 1;
    inflight := <[1 := mkPending (ReqFavList (id u)) KLoadFavorites]> {[0 := mkPending ReqWorksList KLoadWorks]};
    next_req := 2 |}.
Proof. intros Hu Ht Hne. unfold mount. by rewrite (mount_effect_restores st u t Hu Ht Hne). Qed.

(** C22: a stored user that [JSON.parse] rejects, beside a truthy token,
    makes the mount effect throw: the page is unmounted, and every
    reload crashes again since nothing clears the storage. *)
Theorem corrupt_session_crashes st v t :
  getItem KEY_USER st = Some v -> str_truthy v = true ->
  getItem KEY_TOKEN st = Some t -> str_truthy t = true -> parse v = None ->
  mount st = Crashed st /\ forall es y, run (Crashed st) es = Some y -> y = Crashed st.
Proof.
  intros Hu Hv Ht Htt Hp.
  assert (Hm : mount st = Crashed st) by (unfold mount; by rewrite (mount_effect_corrupt st v t Hu Hv Ht Htt Hp)).
  split; [done|]. intros es y. by apply run_crashed.
Qed.


(** C16: the toggle is not safe under interleaving: two clicks on the
    heart of a work that is not a favourite, made before the first reply
    arrives, both read the same id set and both send a POST; once both
    succeed the work is a favourite, where two toggles should have left
    it as it was. *)
Theorem double_toggle_both_add a u w b1 b2 :
  user a = Some u -> page_interactive a = true -> w ∈ cards_shown a -> wid w ∉ favoriteIds a ->
  exists a2 a4,
    run (Running a) [EToggleFavorite w; EToggleFavorite w] = Some (Running a2) /\
    inflight a2 !! next_req a = Some (mkPending (ReqFavAdd (id u) (wid w)) (KToggle false u (wid w))) /\
    inflight a2 !! S (next_req a) = Some (mkPending (ReqFavAdd (id u) (wid w)) (KToggle false u (wid w))) /\
    run (Running a2) [EDeliver (next_req a) (ROk b1); EDeliver (S (next_req a)) (ROk b2)] = Some (Running a4) /\
    wid w ∈ favoriteIds a4.
Proof.
  intros Hu Hp Hw Hf. eexists _, _. split.
  { rewrite (run_cons _ _ _ _ (step_toggle_add a u w Hu Hp Hw Hf)).
    erewrite run_cons; [reflexivity|]. by apply step_toggle_add. }
  split; [cbn [inflight next_req]; by rewrite lookup_insert_ne, lookup_insert_eq by lia|].
  split; [cbn [inflight next_req]; by rewrite lookup_insert_eq|].
  assert (Hne : S (next_req a) <> next_req a) by lia.
  split.
  { erewrite run_cons; [|apply (step_toggle_resume_ok _ _ false u); cbn [inflight next_req];
      by rewrite lookup_insert_ne, lookup_insert_eq by lia].
    erewrite run_cons; [reflexivity|]. apply (step_toggle_resume_ok _ _ false u). cbn [inflight next_req].
    rewrite lookup_insert_ne by lia. rewrite lookup_delete_ne by lia. by rewrite lookup_insert_eq. }
  cbn [favoriteIds]. set_solver.
Qed.

(** C18: toggled twice in sequence, each click waiting for its reply,
    the id set is exactly what it was: a DELETE undoes a POST and a POST
    undoes a DELETE. *)
Theorem sequential_toggles_restore a u w b1 b2 :
  user a = Some u -> page_interactive a = true -> w ∈ cards_shown a ->
  exists a', run (Running a) [EToggleFavorite w; EDeliver (next_req a) (ROk b1);
                              EToggleFavorite w; EDeliver (S (S (next_req a))) (ROk b2)] = Some (Running a') /\
             favoriteIds a' = favoriteIds a.
Proof.
  intros Hu Hp Hw. eexists. split.
  - rewrite (run_cons _ _ _ _ (step_toggle_state a u w Hu Hp Hw)). cbv zeta.
    erewrite run_cons; [|apply step_toggle_resume_ok; cbn [inflight next_req]; by rewrite lookup_insert_eq].
    erewrite run_cons; [|apply step_toggle_state; [exact Hu|exact Hp|exact Hw]]. cbv zeta.
    erewrite run_cons; [reflexivity|]. apply step_toggle_resume_ok. cbn [inflight next_req]. by rewrite lookup_insert_eq.
  - cbn [favoriteIds]. destruct (decide (wid w ∈ favoriteIds a)) as [H|H].
    + rewrite (bool_decide_true _ H), bool_decide_false by set_solver. apply set_eq. intros x. destruct (decide (x = wid w)); set_solver.
    + rewrite (bool_decide_false _ H), bool_decide_true by set_solver. apply set_eq. intros x. destruct (decide (x = wid w)); set_solver.
Qed.
End machine.

#[export] Hint Unfold handler resume segment handleImageUpload drop_request : js_defs.
