(* ===== verification/Invariants.v ===== *)
(** * Invariants of the page over every reachable state

    [Inv] collects what the component maintains: the admin gate, the
    admin dialog and the non-gallery views need a signed-in user; the
    publish dialog needs the admin gate; request ids are fresh; the
    storage stays within its quota and holds under ["user"] only the
    serialisation of a user. Each handler, each continuation, the [user]
    effect and mounting preserve it, so it holds on every state
    reachable from a first visit. *)

From S2P Require Import Prelude Model Storage Gateway App Gallery Favorites Session Admin Machine.

(** Turns boolean facts from [enabled] and the code's tests into
    propositions. *)
Ltac bool_hyps :=
  repeat match goal with
  | H : (_ && _) = true |- _ => apply andb_prop in H as [? ?]
  | H : negb _ = true |- _ => apply negb_true_iff in H
  | H : (_ || _) = false |- _ => apply orb_false_elim in H as [? ?]
  | H : bool_decide _ = true |- _ => apply bool_decide_eq_true in H
  | H : bool_decide _ = false |- _ => apply bool_decide_eq_false in H
  end.

Definition ids_fresh (m : gmap nat Pending) (next : nat) : Prop :=
  forall n, is_Some (m !! n) -> n < next.

Lemma ids_fresh_insert m k p :
  ids_fresh m k -> ids_fresh (<[k := p]> m) (S k).
Proof.
  intros H n [q Hq]. destruct (decide (n = k)) as [->|Hne]; [lia|].
  rewrite lookup_insert_ne in Hq by done. specialize (H n (ltac:(eauto))). lia.
Qed.

Lemma ids_fresh_delete m k n :
  ids_fresh m n -> ids_fresh (delete k m) n.
Proof.
  intros H j [q Hq]. destruct (decide (j = k)) as [->|Hne].
  - by rewrite lookup_delete_eq in Hq.
  - rewrite lookup_delete_ne in Hq by done. eauto.
Qed.

Lemma ids_fresh_empty n : ids_fresh ∅ n.
Proof. intros j [q Hq]. by rewrite lookup_empty in Hq. Qed.

#[export] Hint Resolve ids_fresh_insert ids_fresh_delete ids_fresh_empty : portfolio.

(** The request registered with each continuation is the one its
    [fetch] sends. *)
Definition paired (p : Pending) : Prop :=
  match p_cont p, p_req p with
  | KLoadWorks, ReqWorksList => True
  | KLoadFavorites, ReqFavList _ => True
  | KAuth m, ReqAuth m' _ _ => m = m'
  | KToggle true u w, ReqFavDelete uid w' => uid = id u /\ w' = w
  | KToggle false u w, ReqFavAdd uid w' => uid = id u /\ w' = w
  | KCreateWork, ReqWorksCreate _ _ _ _ _ => True
  | KUpdateProfile, ReqProfile _ => True
  | _, _ => False
  end.

Definition all_paired (m : gmap nat Pending) : Prop :=
  forall n p, m !! n = Some p -> paired p.

Lemma all_paired_insert m k p : paired p -> all_paired m -> all_paired (<[k := p]> m).
Proof.
  intros Hp H n q. destruct (decide (n = k)) as [->|Hne].
  - rewrite lookup_insert_eq. by intros [= <-].
  - rewrite lookup_insert_ne by done. apply H.
Qed.

Lemma all_paired_delete m k : all_paired m -> all_paired (delete k m).
Proof.
  intros H n q. destruct (decide (n = k)) as [->|Hne].
  - by rewrite lookup_delete_eq.
  - rewrite lookup_delete_ne by done. apply H.
Qed.

Lemma all_paired_empty : all_paired ∅.
Proof. intros n q. by rewrite lookup_empty. Qed.

#[export] Hint Resolve all_paired_insert all_paired_delete all_paired_empty : portfolio.
#[export] Hint Extern 1 (paired _) => (cbn; intuition auto) : portfolio.

Section invariants.
Context `{JC : JsonCodec User}.

Definition stored_user_ok (st : Storage) : Prop :=
  forall v, getItem KEY_USER st = Some v -> exists u, v = stringify u.

Record Inv (a : App) : Prop := {
  inv_admin : isAdminMode a = true -> is_Some (user a);
  inv_admin_dialog : showAdminDialog a = true -> is_Some (user a);
  inv_view : currentView a <> VGallery -> is_Some (user a);
  inv_work_dialog : showWorkDialog a = true -> isAdminMode a = true;
  inv_fresh : ids_fresh (inflight a) (next_req a);
  inv_paired : all_paired (inflight a);
  inv_quota : within_quota (storage a);
  inv_stored : stored_user_ok (storage a)
}.

Lemma stored_user_ok_remove k st :
  stored_user_ok st -> stored_user_ok (removeItem k st).
Proof.
  intros H v. destruct (decide (k = KEY_USER)) as [->|Hne].
  - by rewrite getItem_removeItem_eq.
  - rewrite getItem_removeItem_ne by done. apply H.
Qed.

Lemma stored_user_ok_set_other k v st st' :
  k <> KEY_USER -> stored_user_ok st -> setItem k v st = Some st' -> stored_user_ok st'.
Proof. intros Hk H Hset v'. erewrite getItem_setItem_ne by eauto. apply H. Qed.

Lemma stored_user_ok_set_user u st st' :
  stored_user_ok st -> setItem KEY_USER (stringify u) st = Some st' -> stored_user_ok st'.
Proof.
  intros H Hset v. destruct (setItem _ _ _) eqn:E in Hset; simplify_eq.
  rewrite (getItem_setItem_eq _ _ _ _ E). intros [= <-]. eauto.
Qed.
Lemma stored_user_ok_set_user_opt o st st' :
  is_Some o -> stored_user_ok st ->
  setItem KEY_USER (stringify_opt o) st = Some st' -> stored_user_ok st'.
Proof. intros [u ->]. apply stored_user_ok_set_user. Qed.
End invariants.

Ltac inv_contra := exfalso; match goal with
  | H : is_Some None |- _ => by destruct H
  | H : ?P -> is_Some None, H' : ?P |- _ => destruct (H H') as [? [=]]
  | H : ?x <> ?x |- _ => by destruct H
  | _ => congruence
  end.

(** Closes an [Inv] goal on an executed state from the [Inv] of the
    state before. *)
Ltac inv_close := constructor; simpl; intros; simplify_eq/=; eauto with portfolio; try inv_contra.

Lemma KEY_TOKEN_ne_USER : KEY_TOKEN <> KEY_USER.
Proof. done. Qed.

#[export] Hint Resolve stored_user_ok_remove stored_user_ok_set_other
  stored_user_ok_set_user stored_user_ok_set_user_opt KEY_TOKEN_ne_USER : portfolio.

Section preservation.
Context `{JC : JsonCodec User}.

Lemma handler_Inv a e : Inv a -> enabled a e = true -> Inv (exec (handler e) a).
Proof.
  intros [] Hen. destruct e; unfold enabled, in_settings, page_interactive in Hen; bool_hyps;
  run_js_cases; bool_hyps; inv_close.
Qed.

Lemma resume_Inv a p r : Inv a -> paired p -> reply_contract (p_req p) r = true ->
  Inv (exec (resume (p_cont p) r) a).
Proof.
  intros [] Hp Hc. destruct p as [req k]; simpl in *.
  destruct k as [| |m|[] u w| |]; destruct req; simpl in Hp; try contradiction;
  run_js_cases; bool_hyps; inv_close.
Qed.

Lemma user_effect_Inv a : Inv a -> Inv (exec user_effect a).
Proof. intros []. run_js_cases; inv_close. Qed.

Lemma segment_Inv c a : Inv (final_state (c a)) -> Inv (exec (segment c) a).
Proof. rewrite exec_segment; simpl. case_bool_decide; auto using user_effect_Inv. Qed.

Lemma drop_request_Inv n a : Inv a -> Inv (drop_request n a).
Proof. intros []. inv_close. Qed.

Lemma drop_request_paired n a p : Inv a -> inflight a !! n = Some p -> paired p.
Proof. intros [] H. eauto. Qed.

(** What a reload leaves of the page: the storage, if it is sound. *)
Definition StoreInv (st : Storage) : Prop := within_quota st /\ stored_user_ok st.

Lemma mount_Inv st :
  StoreInv st ->
  match mount st with Running a => Inv a | Crashed st' => StoreInv st' end.
Proof.
  intros [Hq Hs]. unfold mount, initialApp. run_js_cases; try done; inv_close.
Qed.

Definition SysInv (x : Sys) : Prop :=
  match x with Running a => Inv a | Crashed st => StoreInv st end.

Lemma step_SysInv x e y : SysInv x -> step x e = Some y -> SysInv y.
Proof.
  destruct x as [a|st]; simpl; intros HI Hs.
  - apply step_running_inv in Hs as [[-> ->]|[(n & r & p & -> & Hp & Hc & ->)|[Hen ->]]].
    + apply mount_Inv. destruct HI. by split.
    + apply segment_Inv, resume_Inv; eauto using drop_request_Inv, drop_request_paired.
    + by apply segment_Inv, handler_Inv.
  - apply step_crashed_inv in Hs as [-> ->]. by apply mount_Inv.
Qed.

Lemma rtc_SysInv x y : SysInv x -> rtc sys_step x y -> SysInv y.
Proof. intros Hx Hr. induction Hr as [|x z y [e He] _ IH]; eauto using step_SysInv. Qed.

Lemma empty_StoreInv q : StoreInv (mkStorage ∅ q).
Proof.
  split; [unfold within_quota, used; simpl; rewrite map_fold_empty; lia|].
  intros v. unfold getItem; simpl. by rewrite lookup_empty.
Qed.

Lemma reachable_SysInv x : reachable x -> SysInv x.
Proof.
  intros [q Hr]. eapply rtc_SysInv; [|exact Hr].
  pose proof (mount_Inv _ (empty_StoreInv q)). by destruct (mount _).
Qed.
End preservation.

(** ** What every reachable page satisfies *)

Section reachable_states.
Context `{JC : JsonCodec User}.

Lemma reachable_Inv a : reachable (Running a) -> Inv a.
Proof. apply (reachable_SysInv (Running a)). Qed.

(** C1: on every page state reachable from a first visit, the admin
    gate is on only while a user is signed in. *)
Theorem admin_gate_requires_user a :
  reachable (Running a) -> isAdminMode a = true -> is_Some (user a).
Proof. intros Hr. apply (inv_admin _ (reachable_Inv a Hr)). Qed.

(** C2: on every reachable page state, the favourites and settings
    views, and the admin-password dialog, are shown only to a signed-in
    user. *)
Theorem signed_in_views_require_user a :
  reachable (Running a) ->
  (currentView a <> VGallery -> is_Some (user a)) /\
  (showAdminDialog a = true -> is_Some (user a)).
Proof. intros Hr. destruct (reachable_Inv a Hr). auto. Qed.

(** C3: on every reachable page state, the publish dialog is open only
    while the admin gate is on and a user is signed in. *)
Theorem publish_dialog_requires_admin a :
  reachable (Running a) -> showWorkDialog a = true ->
  isAdminMode a = true /\ is_Some (user a).
Proof. intros Hr Hw. destruct (reachable_Inv a Hr). auto. Qed.

(** C26: whatever the page does, including after a crash, the storage
    stays within its quota and its ["user"] entry, when present, is the
    serialisation of a user; and every request in flight has a fresh
    id. *)
Theorem reachable_storage_sound x :
  reachable x ->
  match x with
  | Running a => StoreInv (storage a) /\ ids_fresh (inflight a) (next_req a)
  | Crashed st => StoreInv st
  end.
Proof.
  intros Hr. pose proof (reachable_SysInv x Hr) as HI.
  destruct x; simpl in *; [destruct HI; split; [split|]|]; auto.
Qed.
End reachable_states.
