(* ===== verification/Scenarios.v ===== *)
(** * Concrete runs of the page

    The component instantiated with the JSON codec of Json.v, driven
    through concrete event sequences from a first visit (empty storage,
    a quota of 1000 characters). The runs show that the hypotheses of the
    theorems of the other files are met by real executions, among them
    the stale-favourites race of [loadFavorites]. *)

From S2P Require Import Prelude Model Storage Json Gateway App Gallery Favorites Session Admin Machine Invariants.

(** ** Data *)

Definition anna := mkUser 7 "anna" "Anna" None false.
Definition bob := mkUser 8 "bob" "Bob" None false.
Definition sunset := mkWork 5 7 "Sunset" None "data:image/png;base64,AA==" None "2024-05-01" (Some "Anna").

Definition login_body (u : User) (t : string) := mkBody true (Some u) (Some t) None None None.
Definition fav_reply (l : list Work) := ROk (mkBody true None None None None (Some l)).
Definition works_reply (l : list Work) := ROk (mkBody true None None None (Some l) None).

(** Opening the dialog, typing the credentials, submitting, and the
    server's acceptance arriving as reply [n]. *)
Definition login_as (u : User) (n : nat) : list Event :=
  [EOpenAuth; EAuthUsername (username u); EAuthPassword "secret"; ESubmitAuth;
   EDeliver n (ROk (login_body u "tok"))].

Definition empty_storage := mkStorage ∅ 1000.
Definition first_visit : Sys := mount empty_storage.

(** The page a run ends on, or the initial page if the run is refused. *)
Definition page_of (o : option Sys) : App :=
  match o with Some (Running a) => a | _ => initialApp empty_storage end.

(** Anna signs in (request 1; request 0 is the gallery), opens the
    settings, unlocks the admin gate, returns to the gallery and opens the
    publish dialog. *)
Definition admin_events : list Event :=
  login_as anna 1 ++
  [ENavigate VSettings; EOpenAdminDialog; EAdminPassword ADMIN_PASSWORD; ESubmitAdmin;
   ENavigate VGallery; EOpenWorkDialog].

Definition admin_page : App := page_of (run first_visit admin_events).

(** Anna signs in and opens her settings. *)
Definition settings_page : App := page_of (run first_visit (login_as anna 1 ++ [ENavigate VSettings])).

(** Anna signs in (her favourites are request 3), logs out and Bob signs
    in (his favourites are request 6) before Anna's reply has arrived. *)
Definition race_events : list Event :=
  login_as anna 1 ++ [ENavigate VSettings; ELogout] ++ login_as bob 4.

Definition race_page : App := page_of (run first_visit race_events).

(** Anna signed in, the gallery holding [sunset], nothing open. *)
Definition gallery_page : App :=
  {| (initialApp empty_storage) with user := Some anna; user_rev := 1; works := [sunset] |}.

(** The storage after Anna's login was persisted. *)
Definition anna_storage : Storage := storage (page_of (run first_visit (login_as anna 1))).

(** A storage whose ["user"] entry is the text [undefined], as
    [JSON.stringify(undefined)] leaves it. *)
Definition corrupt_storage : Storage :=
  mkStorage (<["user" := "undefined"]> {[ "token" := "tok" ]}) 1000.

(** ** Reachability of the concrete pages *)

Lemma admin_page_reachable : reachable (Running admin_page).
Proof. exists 1000. apply (run_rtc _ admin_events). vm_compute. reflexivity. Qed.

Lemma settings_page_reachable : reachable (Running settings_page).
Proof. exists 1000. apply (run_rtc _ (login_as anna 1 ++ [ENavigate VSettings])). vm_compute. reflexivity. Qed.

(** ** Witnesses *)

Lemma admin_gate_requires_user_witness :
  isAdminMode admin_page = true /\ is_Some (user admin_page).
Proof.
  split; [vm_compute; reflexivity|].
  apply admin_gate_requires_user; [exact admin_page_reachable | vm_compute; reflexivity].
Defined.

Lemma signed_in_views_require_user_witness :
  currentView settings_page = VSettings /\ is_Some (user settings_page).
Proof.
  split; [vm_compute; reflexivity|].
  apply (proj1 (signed_in_views_require_user settings_page settings_page_reachable)). vm_compute. discriminate.
Defined.

Lemma publish_dialog_requires_admin_witness :
  showWorkDialog admin_page = true /\ isAdminMode admin_page = true /\ is_Some (user admin_page).
Proof.
  split; [vm_compute; reflexivity|].
  apply publish_dialog_requires_admin; [exact admin_page_reachable | vm_compute; reflexivity].
Defined.

Lemma reachable_storage_sound_witness :
  StoreInv (storage admin_page) /\ ids_fresh (inflight admin_page) (next_req admin_page).
Proof. exact (reachable_storage_sound (Running admin_page) admin_page_reachable). Defined.

Lemma handleAuth_resume_ok_witness :
  user (exec (handleAuth_resume Login (ROk (login_body anna "tok"))) (initialApp empty_storage)) = Some anna.
Proof.
  rewrite (handleAuth_resume_ok Login (login_body anna "tok") anna "tok" (initialApp empty_storage)
             (default empty_storage (setItem KEY_USER (stringify anna) empty_storage))
             (default empty_storage (setItem KEY_TOKEN "tok"
                (default empty_storage (setItem KEY_USER (stringify anna) empty_storage)))));
    vm_compute; reflexivity.
Defined.

Lemma handleAuth_resume_quota_witness :
  let a := initialApp (mkStorage ∅ 20) in
  exec (handleAuth_resume Login (ROk (login_body anna "tok"))) a =
    {| a with user := Some anna; user_rev := 1; toasts := [toast_request_failed] |}.
Proof. intros a. apply handleAuth_resume_quota; vm_compute; reflexivity. Defined.

Lemma handleAuth_resume_rejected_witness :
  exec (handleAuth_resume Login (ROk (mkBody false None None (Some "bad password") None None)))
       (initialApp empty_storage) =
    {| (initialApp empty_storage) with toasts := [toast_auth_error (Some "bad password")] |}.
Proof.
  apply (proj2 (handleAuth_resume_rejected Login (mkBody false None None (Some "bad password") None None)
                  (initialApp empty_storage))).
  reflexivity.
Defined.

Lemma handleUpdateProfile_resume_rejected_witness :
  exec (handleUpdateProfile_resume (ROk (mkBody false None None None None None))) settings_page = settings_page.
Proof. apply handleUpdateProfile_resume_rejected. reflexivity. Defined.

Lemma handleUpdateProfile_resume_quota_witness :
  let a := {| (initialApp (mkStorage ∅ 20)) with user := Some anna; user_rev := 1 |} in
  exec (handleUpdateProfile_resume (ROk (login_body bob "tok"))) a =
    {| a with user := Some bob; user_rev := 2; toasts := [toast_profile_failed] |}.
Proof. intros a. apply handleUpdateProfile_resume_quota; vm_compute; reflexivity. Defined.

Lemma reload_restores_session_witness :
  exists a, mount anna_storage = Running a /\ user a = Some anna.
Proof.
  eexists. split; [apply (reload_restores_session anna_storage anna "tok")|]; vm_compute; try reflexivity.
  discriminate.
Defined.

Lemma corrupt_session_crashes_witness :
  mount corrupt_storage = Crashed corrupt_storage.
Proof. apply (corrupt_session_crashes corrupt_storage "undefined" "tok"); vm_compute; reflexivity. Defined.

Lemma double_toggle_both_add_witness :
  exists a2 a4,
    run (Running gallery_page) [EToggleFavorite sunset; EToggleFavorite sunset] = Some (Running a2) /\
    inflight a2 !! 0 = Some (mkPending (ReqFavAdd 7 5) (KToggle false anna 5)) /\
    inflight a2 !! 1 = Some (mkPending (ReqFavAdd 7 5) (KToggle false anna 5)) /\
    run (Running a2) [EDeliver 0 (fav_reply []); EDeliver 1 (fav_reply [])] = Some (Running a4) /\
    5%Z ∈ favoriteIds a4.
Proof.
  apply (double_toggle_both_add gallery_page anna sunset); vm_compute; try reflexivity.
  - by left.
  - set_solver.
Defined.

Lemma sequential_toggles_restore_witness :
  exists a', run (Running gallery_page) [EToggleFavorite sunset; EDeliver 0 (fav_reply []);
                                         EToggleFavorite sunset; EDeliver 2 (fav_reply [])] = Some (Running a') /\
             favoriteIds a' = ∅.
Proof.
  apply (sequential_toggles_restore gallery_page anna sunset); vm_compute; try reflexivity. by left.
Defined.

Lemma race_page_reachable : reachable (Running race_page).
Proof. exists 1000. apply (run_rtc _ race_events). vm_compute. reflexivity. Qed.

